(** * Web accessibility MCP server: a shallow embedding of its source, [index.ts]

    The server exposes two tools, [check_accessibility] and
    [simulate_colorblind].  Both drive a headless browser; the second one
    injects a colour transform into the page.  This file embeds

    - the colour arithmetic ([multiply], [colorBlindnessMatrices],
      [window.simulate]) over IEEE-754 binary64 numbers, which is what a
      JavaScript [number] is;
    - [parseColor], [rgbToString] and the per-element injection loop;
    - the URL rewriting done before navigation;
    - the request handlers, as programs in a small trace-and-exception
      monad whose effects are the calls made to the browser driver.

    Builtins of the JavaScript host that the program only calls
    ([String.prototype.toLowerCase], [Number], [parseInt], number
    formatting, [JSON.stringify], [path.join]) are fields of a [Host]
    record; every theorem holds for any host.  Debug logging through
    [console.error] and the unused [waitForSelector] argument are left
    out. *)

From Stdlib Require Import ZArith List String Ascii Bool Lia.
From Stdlib Require Import Floats Uint63.
Import ListNotations.

Set Warnings "-inexact-float,-register-all".
Set Implicit Arguments.

Local Open Scope string_scope.
Local Open Scope list_scope.

(* ================================================================== *)
(** * JavaScript numbers *)

Module Num.

(** A JavaScript [number] is a binary64 float: [PrimFloat.float].  The
    decimal literals of the source ([0.567], [255], ...) denote the
    nearest binary64 value, in Rocq as in JavaScript. *)
Definition number := float.

(** [ToNumber(undefined)] is [NaN]; reading past the end of an array or
    a missing property yields [undefined]. *)
Definition ToNumber (v : option number) : number :=
  match v with
  | Some x => x
  | None => nan
  end.

(** [a[i]] used in arithmetic position. *)
Definition at_ (a : list number) (i : nat) : number :=
  ToNumber (nth_error a i).

(** Exponents returned by [frshiftexp] are biased by [FloatOps.shift]
    ([2101]): a finite non-zero [x] is [M * 2^(e - 2101 - 53)] with
    [M = normfr_mantissa (fst (frshiftexp x))], [2^52 <= M < 2^53]. *)
Definition bias : int := 2101%uint63.
Definition bias_53 : int := 2154%uint63.

(** [Math.round(x)]: the integral number closest to [x], ties going
    towards [+Infinity]; [NaN], the infinities and both zeros are
    returned unchanged; a value in [[-0.5, -0]] gives [-0], a value in
    [[+0, 0.5)] gives [+0]. *)
Definition Math_round (x : number) : number :=
  match classify x with
  | NaN | PInf | NInf | PZero | NZero => x
  | _ =>
    let '(f, e) := frshiftexp x in
    let M := normfr_mantissa f in
    if Uint63.leb bias_53 e then x                     (* |x| >= 2^52: integral *)
    else if Uint63.ltb e bias then                     (* |x| < 1/2 *)
      (if PrimFloat.ltb x 0%float then (-0)%float else 0%float)
    else
      let k := Uint63.sub bias_53 e in                 (* 1 <= k <= 53 fraction bits *)
      let q := Uint63.lsr M k in                       (* floor |x| *)
      let frac := Uint63.land M (Uint63.sub (Uint63.lsl 1 k) 1) in
      let half := Uint63.lsl 1 (Uint63.sub k 1) in
      if PrimFloat.ltb x 0%float then
        PrimFloat.opp
          (of_uint63 (if Uint63.ltb half frac then Uint63.add q 1 else q))
      else
        of_uint63 (if Uint63.leb half frac then Uint63.add q 1 else q)
  end.

(** The number denoted by an integer literal (exact below [2^53]). *)
Definition of_Z (z : Z) : number :=
  match z with
  | Z0 => 0%float
  | Zpos _ => of_uint63 (Uint63.of_Z z)
  | Zneg _ => PrimFloat.opp (of_uint63 (Uint63.of_Z (Z.opp z)))
  end.

(** [lo <= x && x <= hi] as JavaScript evaluates it ([false] on [NaN]). *)
Definition between (lo hi x : number) : bool :=
  PrimFloat.leb lo x && PrimFloat.leb x hi.

(** [x !== x] holds exactly for [NaN]. *)
Definition is_nan (x : number) : bool := negb (PrimFloat.eqb x x).

End Num.

(* ================================================================== *)
(** * The colour transform injected into the page *)

Module Color.
Import Num.
Local Open Scope float_scope.

(** [interface RGB { r: number; g: number; b: number }].  At run time a
    field can also hold [undefined] (see [parseColor]); [None] stands
    for it. *)
Record RGB := mkRGB { r : option number; g : option number; b : option number }.

Definition rgb (x y z : number) : RGB := mkRGB (Some x) (Some y) (Some z).

(** Values thrown inside the page. *)
Inductive PageError :=
| TypeError (message : string).

(** [function multiply(a, b)]: a row vector times a row-major 3x3 matrix. *)
Definition multiply (a b : list number) : list number :=
  [ at_ a 0 * at_ b 0 + at_ a 1 * at_ b 3 + at_ a 2 * at_ b 6;
    at_ a 0 * at_ b 1 + at_ a 1 * at_ b 4 + at_ a 2 * at_ b 7;
    at_ a 0 * at_ b 2 + at_ a 1 * at_ b 5 + at_ a 2 * at_ b 8 ].

Definition protanopia : list number :=
  [ 0.567; 0.433; 0;
    0.558; 0.442; 0;
    0; 0.242; 0.758 ].

Definition deuteranopia : list number :=
  [ 0.625; 0.375; 0;
    0.7; 0.3; 0;
    0; 0.3; 0.7 ].

Definition tritanopia : list number :=
  [ 0.95; 0.05; 0;
    0; 0.433; 0.567;
    0; 0.475; 0.525 ].

(** Property names every object literal inherits from
    [Object.prototype]; looking one of them up in
    [colorBlindnessMatrices] yields a function or an object that has no
    indexed property. *)
Definition Object_prototype_names : list string :=
  [ "constructor"; "__proto__"; "hasOwnProperty"; "isPrototypeOf";
    "propertyIsEnumerable"; "toLocaleString"; "toString"; "valueOf";
    "__defineGetter__"; "__defineSetter__"; "__lookupGetter__";
    "__lookupSetter__" ].

Definition mem_string (s : string) (l : list string) : bool :=
  existsb (String.eqb s) l.

(** [colorBlindnessMatrices[type]]: [None] is [undefined]; an inherited
    property is an object whose indexed reads all give [undefined],
    which is how the empty list behaves under [at_]. *)
Definition colorBlindnessMatrices (type : string) : option (list number) :=
  if (type =? "protanopia")%string then Some protanopia
  else if (type =? "deuteranopia")%string then Some deuteranopia
  else if (type =? "tritanopia")%string then Some tritanopia
  else if mem_string type Object_prototype_names then Some []
  else None.

(** [window.simulate = function (rgb, type)].  Indexing [undefined]
    inside [multiply] throws a [TypeError]. *)
Definition simulate (c : RGB) (type : string) : PageError + RGB :=
  match colorBlindnessMatrices type with
  | None => inl (TypeError "Cannot read properties of undefined (reading '0')")
  | Some matrix =>
    let result :=
      multiply [ToNumber (r c) / 255; ToNumber (g c) / 255; ToNumber (b c) / 255]
               matrix in
    inr (rgb (Math_round (at_ result 0 * 255))
             (Math_round (at_ result 1 * 255))
             (Math_round (at_ result 2 * 255)))
  end.

Definition supported (type : string) : Prop :=
  type = "protanopia" \/ type = "deuteranopia" \/ type = "tritanopia".

(** ** The reference transform, written from the specification

    [v[i] = sum over j of (rgb_j / 255) * M[3*j + i]], result
    [round(255 * v[i])]; the sum is taken in the order [j = 0, 1, 2]. *)
Definition sum_over (js : list nat) (term : nat -> number) : number :=
  match js with
  | [] => 0
  | j :: rest => fold_left (fun acc j' => acc + term j') rest (term j)
  end.

Definition reference_v (c : list number) (M : list number) (i : nat) : number :=
  sum_over [0; 1; 2]%nat (fun j => (at_ c j / 255) * at_ M (3 * j + i)).

Definition reference_transform (c : RGB) (M : list number) : RGB :=
  let v := reference_v [ToNumber (r c); ToNumber (g c); ToNumber (b c)] M in
  rgb (Math_round (255 * v 0%nat))
      (Math_round (255 * v 1%nat))
      (Math_round (255 * v 2%nat)).

(** The range predicate of the specification on a returned colour. *)
Definition component_in (lo hi : number) (c : option number) : bool :=
  match c with
  | Some x => between lo hi x
  | None => false
  end.

Definition components_in (lo hi : number) (c : RGB) : bool :=
  component_in lo hi (r c) && component_in lo hi (g c) && component_in lo hi (b c).

(** ** Exhaustive range check over byte-valued inputs

    A component of the result is
    [Math_round ((p0 + p1 + p2) * 255)] with [p_j = c_j / 255 * m_j];
    [column_ok] evaluates the range test on every combination of
    candidate products. *)
Definition bytes : list number := map of_Z (map Z.of_nat (seq 0 256)).

Definition scaled (m c : number) : number := c / 255 * m.

(** Drop an element equal to its successor. *)
Fixpoint compress (l : list number) : list number :=
  match l with
  | [] => []
  | x :: tl =>
    match tl with
    | [] => [x]
    | y :: _ => if PrimFloat.Leibniz.eqb x y then compress tl else x :: compress tl
    end
  end.

Definition products (m : number) : list number :=
  compress (map (scaled m) bytes).

Definition column_ok (lo hi : number) (L0 L1 L2 : list number) : bool :=
  forallb (fun p0 =>
    forallb (fun p1 =>
      let s := p0 + p1 in
      forallb (fun p2 => between lo hi (Math_round ((s + p2) * 255))) L2) L1) L0.

(** The three columns of a matrix.  (An abbreviation, so that no proof
    has to unfold a constant in front of the exhaustive computation.) *)
Abbreviation matrix_ok lo hi M :=
  (forallb (fun i =>
     column_ok lo hi (products (at_ M i)) (products (at_ M (3 + i)))
               (products (at_ M (6 + i)))) [0; 1; 2]%nat).

End Color.

(* ================================================================== *)
(** * Strings *)

(** A JavaScript string is a sequence of code units; a [string] here is
    such a sequence with every unit below 256.  The methods the program
    calls on strings follow. *)
Module Str.

(** [s.startsWith(p)] *)
Fixpoint startsWith (p s : string) : bool :=
  match p with
  | EmptyString => true
  | String a p' =>
    match s with
    | EmptyString => false
    | String c s' => Ascii.eqb a c && startsWith p' s'
    end
  end.

(** The tail of [s] after its first [n] units. *)
Fixpoint drop (n : nat) (s : string) : string :=
  match n with
  | O => s
  | S n' => match s with EmptyString => EmptyString | String _ s' => drop n' s' end
  end.

(** [s.replace(pat, rep)] for a string pattern: only the first
    occurrence is replaced ([rep] holds no [$] pattern in this program). *)
Fixpoint replace_first (pat rep s : string) : string :=
  if startsWith pat s then rep ++ drop (String.length pat) s
  else match s with
       | EmptyString => EmptyString
       | String c s' => String c (replace_first pat rep s')
       end.

(** The class [\s] restricted to units below 256: TAB, LF, VT, FF, CR,
    SPACE and NO-BREAK SPACE. *)
Definition is_space (c : ascii) : bool :=
  let n := nat_of_ascii c in
  ((9 <=? n)%nat && (n <=? 13)%nat) || (n =? 32)%nat || (n =? 160)%nat.

(** [s.replace(/\s/g, '')] *)
Fixpoint remove_spaces (s : string) : string :=
  match s with
  | EmptyString => EmptyString
  | String c s' => if is_space c then remove_spaces s' else String c (remove_spaces s')
  end.

(** [s.split(',')]: never the empty list. *)
Fixpoint split_comma (s : string) : list string :=
  match s with
  | EmptyString => [EmptyString]
  | String c s' =>
    if Ascii.eqb c "," then EmptyString :: split_comma s'
    else match split_comma s' with
         | [] => [String c EmptyString]
         | w :: ws => String c w :: ws
         end
  end.

(** [s.includes(part)] *)
Fixpoint includes (part s : string) : bool :=
  startsWith part s
  || match s with
     | EmptyString => false
     | String _ s' => includes part s'
     end.

(** [s.substr(start, len)] for non-negative arguments. *)
Definition substr (start len : nat) (s : string) : string :=
  String.substring start len s.

End Str.

(* ================================================================== *)
(** * The host: builtins the program calls but does not define *)

Inductive Thrown :=
| Error (message : string)       (* [e instanceof Error], [e.message] *)
| NonError (text : string).      (* any other value, [String(e)] *)

Module JsValue.
Import Num.

(** Values that reach the server as tool arguments. *)
Inductive value :=
| undefined
| null
| boolean (b : bool)
| num (x : number)
| str (s : string)
| array (items : list value)
| object (props : list (string * value)).

(** [!!v] *)
Definition truthy (v : value) : bool :=
  match v with
  | undefined | null => false
  | boolean b => b
  | num x => negb (PrimFloat.eqb x 0%float || is_nan x)
  | str s => negb (s =? "")
  | array _ | object _ => true
  end.

(** [v[key]] on a truthy [v], for a key that no prototype defines (the
    program reads [url], [type], [outputPath], [userAgent] and
    [waitForSelector]); the keys of a property list are distinct. *)
Definition get (v : value) (key : string) : value :=
  match v with
  | object props =>
    match find (fun kv => fst kv =? key) props with
    | Some kv => snd kv
    | None => undefined
    end
  | _ => undefined
  end.

(** [typeof v === 'string'], with the string when it holds. *)
Definition as_string (v : value) : option string :=
  match v with
  | str s => Some s
  | _ => None
  end.

(** [a || b] *)
Definition or_else (a b : value) : value := if truthy a then a else b.

End JsValue.

(** The text a [JSON.stringify] call is given. *)
Inductive json :=
| JString (s : string)
| JNumber (n : Z)
| JArray (items : list json)
| JObject (fields : list (string * json)).

Record Host := {
  toLowerCase : string -> string;                  (* String.prototype.toLowerCase *)
  Number : string -> Num.number;                   (* Number(s) *)
  parseInt : string -> Z -> Num.number;            (* parseInt(s, radix) *)
  Number_toString : Num.number -> string;          (* `${x}` for a number *)
  JSON_stringify : json -> Z -> string;            (* JSON.stringify(v, null, indent) *)
  path_join : string -> string -> string;          (* path.join(a, b) on strings *)
  path_invalid_arg : JsValue.value -> string       (* message of the TypeError path.join
                                                      throws on a non-string *)
}.

(* ================================================================== *)
(** * [parseColor], [rgbToString] and the injected script *)

Module Page.
Import Num Color Str.

Section WithHost.
Variable H : Host.

(** [function parseColor(color: string): RGB], module level. *)
Definition parseColor (color : string) : RGB :=
  let color := remove_spaces (toLowerCase H color) in
  if startsWith "rgba(" color || startsWith "rgb(" color then
    let values :=
      map (Number H)
          (split_comma
             (replace_first ")" ""
                (replace_first "rgb(" "" (replace_first "rgba(" "" color)))) in
    mkRGB (nth_error values 0) (nth_error values 1) (nth_error values 2)
  else if startsWith "#" color then
    let hex := replace_first "#" "" color in
    let r := parseInt H (substr 0 2 hex) 16%Z in
    let g := parseInt H (substr 2 2 hex) 16%Z in
    let b := parseInt H (substr 4 2 hex) 16%Z in
    rgb r g b
  else
    rgb 0%float 0%float 0%float.

(** The copy of [parseColor] declared inside [page.evaluate]. *)
Definition parseColor_injected (color : string) : RGB :=
  let color := remove_spaces (toLowerCase H color) in
  if startsWith "rgba(" color || startsWith "rgb(" color then
    let values :=
      map (Number H)
          (split_comma
             (replace_first ")" ""
                (replace_first "rgb(" "" (replace_first "rgba(" "" color)))) in
    mkRGB (nth_error values 0) (nth_error values 1) (nth_error values 2)
  else if startsWith "#" color then
    let hex := replace_first "#" "" color in
    let r := parseInt H (substr 0 2 hex) 16%Z in
    let g := parseInt H (substr 2 2 hex) 16%Z in
    let b := parseInt H (substr 4 2 hex) 16%Z in
    rgb r g b
  else
    rgb 0%float 0%float 0%float.

(** [`${x}`] for a field of an [RGB]. *)
Definition show (x : option number) : string :=
  match x with
  | Some v => Number_toString H v
  | None => "undefined"
  end.

(** [function rgbToString(rgb: RGB): string] *)
Definition rgbToString (c : RGB) : string :=
  "rgb(" ++ show (r c) ++ ", " ++ show (g c) ++ ", " ++ show (b c) ++ ")".

(** ** The document the script runs on

    The page is a state [Document]; [getComputedStyle] reads the two
    computed properties of an element in the current state and
    [setStyle] is the assignment [el.style.prop = value]. *)
Record ComputedStyle := { color : string; backgroundColor : string }.

Inductive StyleProperty := style_color | style_backgroundColor.

Variable Document Element : Type.
Variable querySelectorAll : Document -> list Element.   (* selector ['*'] *)
Variable getComputedStyle : Document -> Element -> ComputedStyle.
Variable setStyle : Document -> Element -> StyleProperty -> string -> Document.

Definition transparent : string := "rgba(0, 0, 0, 0)".

(** The body of [elements.forEach(el => ...)]: both computed values are
    read before either assignment. *)
Definition visit (type : string) (d : Document) (el : Element)
  : PageError + Document :=
  let styles := getComputedStyle d el in
  let color := color styles in
  let backgroundColor := backgroundColor styles in
  let after_color :=
    if negb (color =? transparent) then
      match simulate (parseColor_injected color) type with
      | inl e => inl e
      | inr simulatedColor => inr (setStyle d el style_color (rgbToString simulatedColor))
      end
    else inr d in
  match after_color with
  | inl e => inl e
  | inr d1 =>
    if negb (backgroundColor =? transparent) then
      match simulate (parseColor_injected backgroundColor) type with
      | inl e => inl e
      | inr simulatedBgColor =>
        inr (setStyle d1 el style_backgroundColor (rgbToString simulatedBgColor))
      end
    else inr d1
  end.

Fixpoint forEach (type : string) (els : list Element) (d : Document)
  : PageError + Document :=
  match els with
  | [] => inr d
  | el :: rest =>
    match visit type d el with
    | inl e => inl e
    | inr d' => forEach type rest d'
    end
  end.

(** The function passed to [page.evaluate], applied to [args.type]. *)
Definition inject (type : string) (d : Document) : PageError + Document :=
  forEach type (querySelectorAll d) d.

(** ** The per-element transform, written from the specification *)
Definition transform_ref (M : list number) (computed : string) : string :=
  rgbToString (reference_transform (parseColor_injected computed) M).

Definition visit_ref (M : list number) (d : Document) (el : Element) : Document :=
  let styles := getComputedStyle d el in
  let d1 :=
    if color styles =? transparent then d
    else setStyle d el style_color (transform_ref M (color styles)) in
  if backgroundColor styles =? transparent then d1
  else setStyle d1 el style_backgroundColor (transform_ref M (backgroundColor styles)).

End WithHost.
End Page.

(* ================================================================== *)
(** * URL rewriting before navigation *)

Module Url.
Import Str.

(** The fragment of regular expressions the program uses. *)
Inductive regex :=
| Lit (s : string)
| Opt (r : regex)            (* greedy [r?] *)
| Seq (r1 r2 : regex).

(** Backtracking match of [r] at the start of [s]; [k] matches what
    follows and the result is the unmatched rest of the string. *)
Fixpoint match_here (r : regex) (s : string) (k : string -> option string)
  : option string :=
  match r with
  | Lit l => if startsWith l s then k (drop (String.length l) s) else None
  | Opt r' =>
    match match_here r' s k with
    | Some rest => Some rest
    | None => k s
    end
  | Seq r1 r2 => match_here r1 s (fun s' => match_here r2 s' k)
  end.

(** [s.replace(/^r/, rep)]: the pattern is anchored, so it is tried at
    index 0 only. *)
Definition replace_anchored (r : regex) (rep s : string) : string :=
  match match_here r s Some with
  | Some rest => rep ++ rest
  | None => s
  end.

(** [/^(https?:\/\/)?(www\.)?/] *)
Definition scheme_www : regex :=
  Seq (Opt (Seq (Lit "http") (Seq (Opt (Lit "s")) (Lit "://"))))
      (Opt (Lit "www.")).

(** [args.url.replace(/^(https?:\/\/)?(www\.)?/, 'https://www.')] *)
Definition urlToUse (url : string) : string :=
  replace_anchored scheme_www "https://www." url.

(** ** The rewriting, written from the specification *)
Definition strip (p s : string) : string :=
  if startsWith p s then drop (String.length p) s else s.

Definition strip_scheme (s : string) : string :=
  if startsWith "https://" s then drop 8 s
  else if startsWith "http://" s then drop 7 s
  else s.

Definition rewritten (url : string) : string :=
  "https://www." ++ strip "www." (strip_scheme url).

End Url.

(* ================================================================== *)
(** * The server: tools, effects and request handlers *)

Module Server.
Import JsValue.

(** ** Protocol data *)

Inductive ErrorCode := MethodNotFound | InvalidParams.

(** [new McpError(code, message)] *)
Record McpError := mkMcpError { code : ErrorCode; mcp_message : string }.

Record Property := {
  prop_name : string;
  prop_type : string;
  prop_enum : option (list string);
  prop_description : string
}.

Record Tool := {
  tool_name : string;
  tool_description : string;
  properties : list Property;      (* inputSchema.properties, type 'object' *)
  required : list string           (* inputSchema.required *)
}.

(** [request.params] of a CallTool request; absent [arguments] are
    [undefined]. *)
Record CallToolRequest := { name : string; arguments : value }.

Record Content := { content_type : string; text : string }.

(** A handler's return value; [isError] is [None] when the property is
    not set. *)
Record Response := { content : list Content; isError : option bool }.

(** How a handler invocation ends. *)
Inductive Completion :=
| Returned (r : Response)
| Threw (e : McpError).

(** ** What the audit engine reports *)

Record Node := { html : string; failureSummary : string }.

Record Violation := {
  impact : string;
  description : string;
  help : string;
  helpUrl : string;
  nodes : list Node
}.

Record AxeResults := {
  violations : list Violation;
  passes : list value;
  inapplicable : list value;
  incomplete : list value
}.

(** The callback of [window.axe.run(cb)]: a truthy [err], kept as
    [String(err)], or the results. *)
Inductive AxeOutcome :=
| AxeError (err : string)
| AxeDone (results : AxeResults).

(** ** Effects

    Every call the handlers make to the browser driver is an [Op]; the
    options the claims speak about are its arguments. *)
Inductive Op :=
| launch (headless : bool) (args : list string)
| newPage
| setViewport (width height : Z)
| setUserAgent (userAgent : value)
| setRequestInterception (enabled : bool)
| on_ (event : string)
| goto (url : string) (waitUntil : string) (timeout : Z)
| waitForSelector (selector : string) (timeout : Z)
| setTimeout (ms : Z)
| evaluate_simulation (type : string)
| evaluate_axe_source
| evaluate_axe_run
| screenshot (path : string) (fullPage : bool)
| close.

(** One performed call and, when it rejected, the value it threw. *)
Record Event := { op : Op; failure : option Thrown }.

(** Everything outside the program: which driver call rejects (by its
    position in the trace and its arguments), what the audit reports,
    the clock and the environment variable. *)
Record World := {
  outcome : nat -> Op -> option Thrown;
  axe_run : AxeOutcome;
  now_ISO : string;                     (* new Date().toISOString() *)
  MCP_OUTPUT_DIR : option string        (* process.env.MCP_OUTPUT_DIR *)
}.

(** The state of one invocation: the calls made so far, and whether the
    handler's [let browser] has been assigned. *)
Record State := { trace : list Event; browser : bool }.

Definition start : State := {| trace := []; browser := false |}.

(** ** The monad of handler bodies: state, plus a thrown value *)
Definition M (A : Type) : Type := World -> State -> State * (Thrown + A).

Definition ret {A} (a : A) : M A := fun _ s => (s, inr a).

Definition bind {A B} (m : M A) (f : A -> M B) : M B :=
  fun w s =>
    match m w s with
    | (s', inl e) => (s', inl e)
    | (s', inr a) => f a w s'
    end.

Definition throw {A} (e : Thrown) : M A := fun _ s => (s, inl e).

Definition record (o : Op) (f : option Thrown) (s : State) : State :=
  {| trace := trace s ++ [{| op := o; failure := f |}]; browser := browser s |}.

(** [await driver.op(...)]: the world decides whether it rejects. *)
Definition call (o : Op) : M unit :=
  fun w s =>
    match outcome w (List.length (trace s)) o with
    | Some e => (record o (Some e) s, inl e)
    | None => (record o None s, inr tt)
    end.

(** A call that cannot reject (registering a listener, a timer). *)
Definition emit (o : Op) : M unit :=
  fun _ s => (record o None s, inr tt).

(** [browser = ...] *)
Definition assign_browser : M unit :=
  fun _ s => ({| trace := trace s; browser := true |}, inr tt).

Definition read_browser : M bool := fun _ s => (s, inr (browser s)).

Definition ask {A} (f : World -> A) : M A := fun w s => (s, inr (f w)).

Definition lift {A} (x : Thrown + A) : M A := fun _ s => (s, x).

(** [try { m } catch (error) { h error }] *)
Definition try_catch {A} (m : M A) (h : Thrown -> M A) : M A :=
  fun w s =>
    match m w s with
    | (s', inl e) => h e w s'
    | (s', inr a) => (s', inr a)
    end.

Declare Scope handler_scope.
Delimit Scope handler_scope with handler.
Notation "x <- m ;; k" := (bind m (fun x => k))
  (at level 61, m at next level, right associativity) : handler_scope.
Notation "m ;; k" := (bind m (fun _ => k))
  (at level 61, right associativity) : handler_scope.
Local Open Scope handler_scope.

(** An [async] handler: it throws before its [try], or returns what the
    [try]/[catch] returns.  A value escaping the [catch] would reject
    the handler's promise; that is [inl] below. *)
Definition Handler := World -> State * (Thrown + Completion).

Definition run (m : M Response) : Handler :=
  fun w =>
    match m w start with
    | (s, inl e) => (s, inl e)
    | (s, inr r) => (s, inr (Returned r))
    end.

Definition reject (e : McpError) : Handler := fun _ => (start, inr (Threw e)).

(** ** Constants of the handlers *)
Definition launch_args : list string :=
  [ "--no-sandbox"; "--disable-setuid-sandbox"; "--disable-dev-shm-usage";
    "--disable-accelerated-2d-canvas"; "--disable-gpu"; "--window-size=1920,1080" ].

Definition windows_agent : string :=
  "Mozilla/5.0 (Windows NT 10.0; Win64; x64) AppleWebKit/537.36 (KHTML, like Gecko) Chrome/120.0.0.0 Safari/537.36".

Definition mac_agent : string :=
  "Mozilla/5.0 (Macintosh; Intel Mac OS X 10_15_7) AppleWebKit/537.36 (KHTML, like Gecko) Chrome/120.0.0.0 Safari/537.36".

(** [error instanceof Error ? error.message : String(error)] *)
Definition describe (e : Thrown) : string :=
  match e with
  | Error message => message
  | NonError text => text
  end.

Definition text_content (t : string) : Content :=
  {| content_type := "text"; text := t |}.

Definition error_response (prefix : string) (e : Thrown) : Response :=
  {| content := [text_content (prefix ++ describe e)]; isError := Some true |}.

(** [process.env.MCP_OUTPUT_DIR || './output'] *)
Definition outputDir (w : World) : string :=
  match MCP_OUTPUT_DIR w with
  | Some d => if d =? "" then "./output" else d
  | None => "./output"
  end.

Section WithHost.
Variable H : Host.

(** [join(outputDir, p)]: [path.join] throws a [TypeError] on a
    non-string argument. *)
Definition join (dir : string) (p : value) : Thrown + string :=
  match p with
  | str s => inr (path_join H dir s)
  | v => inl (Error (path_invalid_arg H v))
  end.

(** ** [simulate_colorblind] *)

Definition simulation_json (url type outputPath timestamp : string) : json :=
  JObject [ ("url", JString url);
            ("type", JString type);
            ("outputPath", JString outputPath);
            ("timestamp", JString timestamp);
            ("message", JString ("Screenshot saved with " ++ type ++ " simulation")) ].

(** The [try] block of [handleColorBlindSimulation]. *)
Definition simulation_try (url type : string) (outputPath userAgent : value)
  : M Response :=
  call (launch true launch_args) ;;
  assign_browser ;;
  call newPage ;;
  call (setViewport 1920 1080) ;;
  call (setUserAgent (or_else userAgent (str windows_agent))) ;;
  call (setRequestInterception true) ;;
  emit (on_ "request") ;;
  emit (on_ "response") ;;
  emit (on_ "console") ;;
  let urlToUse := Url.urlToUse url in
  call (goto urlToUse "networkidle2" 120000) ;;
  call (waitForSelector "body" 120000) ;;
  emit (setTimeout 5000) ;;
  call (evaluate_simulation type) ;;
  emit (setTimeout 2000) ;;
  dir <- ask outputDir ;;
  outputPath <- lift (join dir (or_else outputPath (str ("colorblind_" ++ type ++ ".png")))) ;;
  call (screenshot outputPath true) ;;
  call close ;;
  timestamp <- ask now_ISO ;;
  ret {| content :=
           [text_content (JSON_stringify H (simulation_json url type outputPath timestamp) 2)];
         isError := None |}.

(** The [catch] block of [handleColorBlindSimulation]: the nested
    [try] swallows a failure of [browser.close()]. *)
Definition simulation_catch (error : Thrown) : M Response :=
  assigned <- read_browser ;;
  (if assigned then try_catch (call close) (fun closeError => ret tt) else ret tt) ;;
  ret (error_response "Error simulating color blindness: " error).

Definition handleColorBlindSimulation (request : CallToolRequest) : Handler :=
  let a := arguments request in
  if negb (truthy a) then
    reject (mkMcpError InvalidParams "URL and type parameters are required")
  else
    match as_string (get a "url"), as_string (get a "type") with
    | Some url, Some type =>
      run (try_catch
             (simulation_try url type (get a "outputPath") (get a "userAgent"))
             simulation_catch)
    | _, _ =>
      reject (mkMcpError InvalidParams "URL and type parameters are required")
    end.

(** ** [check_accessibility] *)

Definition node_json (n : Node) : json :=
  JObject [ ("html", JString (html n));
            ("failureSummary", JString (failureSummary n)) ].

Definition violation_json (v : Violation) : json :=
  JObject [ ("impact", JString (impact v));
            ("description", JString (description v));
            ("help", JString (help v));
            ("helpUrl", JString (helpUrl v));
            ("nodes", JArray (map node_json (nodes v))) ].

Definition accessibility_json (url timestamp : string) (results : AxeResults) : json :=
  JObject [ ("url", JString url);
            ("timestamp", JString timestamp);
            ("violations", JArray (map violation_json (violations results)));
            ("passes", JNumber (Z.of_nat (List.length (passes results))));
            ("inapplicable", JNumber (Z.of_nat (List.length (inapplicable results))));
            ("incomplete", JNumber (Z.of_nat (List.length (incomplete results)))) ].

(** The [try] block of [handleAccessibilityCheck]; [userAgent] is the
    string computed before it. *)
Definition accessibility_try (url userAgent : string) : M Response :=
  call (launch true (launch_args ++ ["--dns-prefetch-disable"])) ;;
  call newPage ;;
  call (setViewport 1920 1080) ;;
  call (setUserAgent (or_else (str userAgent) (str windows_agent))) ;;
  let urlToUse := Url.urlToUse url in
  call (goto urlToUse "domcontentloaded" 30000) ;;
  call (waitForSelector "body" 30000) ;;
  emit (setTimeout 5000) ;;
  call evaluate_axe_source ;;
  call evaluate_axe_run ;;
  results <- ask axe_run ;;
  call close ;;
  match results with
  | AxeError err => throw (Error err)
  | AxeDone results =>
    timestamp <- ask now_ISO ;;
    ret {| content :=
             [text_content (JSON_stringify H (accessibility_json url timestamp results) 2)];
           isError := None |}
  end.

(** The [catch] block of [handleAccessibilityCheck]. *)
Definition accessibility_catch (error : Thrown) : M Response :=
  ret (error_response "Error analyzing URL: " error).

Definition handleAccessibilityCheck (request : CallToolRequest) : Handler :=
  let a := arguments request in
  if negb (truthy a) then
    reject (mkMcpError InvalidParams "URL parameter is required")
  else
    match as_string (get a "url") with
    | Some url =>
      let userAgent :=
        match as_string (get a "userAgent") with
        | Some ua => ua
        | None => mac_agent
        end in
      run (try_catch (accessibility_try url userAgent) accessibility_catch)
    | None =>
      reject (mkMcpError InvalidParams "URL parameter is required")
    end.

(** ** [setupToolHandlers] *)

Definition ListTools : list Tool :=
  [ {| tool_name := "check_accessibility";
       tool_description := "Check web accessibility of a given URL using axe-core";
       properties :=
         [ {| prop_name := "url"; prop_type := "string"; prop_enum := None;
              prop_description := "URL to analyze" |};
           {| prop_name := "waitForSelector"; prop_type := "string"; prop_enum := None;
              prop_description := "Optional CSS selector to wait for before analysis" |};
           {| prop_name := "userAgent"; prop_type := "string"; prop_enum := None;
              prop_description := "Optional user agent string to use for the request" |} ];
       required := ["url"] |};
    {| tool_name := "simulate_colorblind";
       tool_description := "Simulate how a webpage looks for colorblind users";
       properties :=
         [ {| prop_name := "url"; prop_type := "string"; prop_enum := None;
              prop_description := "URL to capture" |};
           {| prop_name := "type"; prop_type := "string";
              prop_enum := Some ["protanopia"; "deuteranopia"; "tritanopia"];
              prop_description := "Type of color blindness to simulate" |};
           {| prop_name := "outputPath"; prop_type := "string"; prop_enum := None;
              prop_description := "Optional path to save the screenshot" |};
           {| prop_name := "userAgent"; prop_type := "string"; prop_enum := None;
              prop_description := "Optional user agent string to use for the request" |} ];
       required := ["url"; "type"] |} ].

Definition CallTool (request : CallToolRequest) : Handler :=
  if name request =? "check_accessibility" then handleAccessibilityCheck request
  else if name request =? "simulate_colorblind" then handleColorBlindSimulation request
  else reject (mkMcpError MethodNotFound ("Unknown tool: " ++ name request)).

End WithHost.

(** ** Observations on a trace *)

Definition failed (e : Event) : bool :=
  match failure e with Some _ => true | None => false end.

Definition is_launch (o : Op) : bool :=
  match o with launch _ _ => true | _ => false end.

Definition is_goto (o : Op) : bool :=
  match o with goto _ _ _ => true | _ => false end.

Definition is_close (o : Op) : bool :=
  match o with close => true | _ => false end.

Definition count (p : Op -> bool) (t : list Event) : nat :=
  List.length (filter (fun e => p (op e)) t).

(** Whether a browser is running after the calls of [t]: a successful
    [launch] starts one, a successful [close] ends it. *)
Definition browser_running (t : list Event) : bool :=
  fold_left
    (fun running e =>
       match op e, failure e with
       | launch _ _, None => true
       | close, None => false
       | _, _ => running
       end) t false.

(** The ops of a trace, in order. *)
Definition ops (t : list Event) : list Op := map op t.

(** The trace and the completion of an invocation. *)
Definition trace_of (h : Handler) (w : World) : list Event := trace (fst (h w)).
Definition completion_of (h : Handler) (w : World) : Thrown + Completion := snd (h w).

(** Requests that pass a handler's parameter check, with the strings it
    extracts. *)
Definition valid_simulation (request : CallToolRequest) (url type : string) : Prop :=
  truthy (arguments request) = true
  /\ as_string (get (arguments request) "url") = Some url
  /\ as_string (get (arguments request) "type") = Some type.

Definition valid_accessibility (request : CallToolRequest) (url : string) : Prop :=
  truthy (arguments request) = true
  /\ as_string (get (arguments request) "url") = Some url.

(** Every [launch] of a trace is headless. *)
Definition launches_headless (t : list Event) : Prop :=
  Forall (fun o => match o with launch headless _ => headless = true | _ => True end)
         (ops t).

(** Every [goto] of a trace waits for [waitUntil] under [timeout] ms. *)
Definition navigates_with (waitUntil : string) (timeout : Z) (t : list Event) : Prop :=
  Forall (fun o => match o with
                   | goto _ w' t' => w' = waitUntil /\ t' = timeout
                   | _ => True
                   end) (ops t).

(** Every [goto] of a trace goes to [url]. *)
Definition navigates_to (url : string) (t : list Event) : Prop :=
  Forall (fun o => match o with goto u _ _ => u = url | _ => True end) (ops t).

(** The user agent [handleAccessibilityCheck] computes before its [try]. *)
Definition agent_of (request : CallToolRequest) : string :=
  match as_string (get (arguments request) "userAgent") with
  | Some ua => ua
  | None => mac_agent
  end.

(** Catch-and-report, for a handler [h] whose [try] block ended as [body]:
    the handler returns a response; a value raised by the block is
    reported as the single text item [prefix ++ message] under
    [isError: true]; a response returned by the block is passed on, with
    no [isError]; a rejected driver call always ends in an error response,
    and it is the reported one unless it is a [close]; the browser is
    launched exactly once and navigated at most once. *)
Definition catches_and_reports (prefix : string) (body : State * (Thrown + Response))
           (h : Handler) (w : World) : Prop :=
  let t := trace_of h w in
  exists resp,
    completion_of h w = inr (Returned resp)
    /\ (forall e, snd body = inl e ->
                  content resp = [text_content (prefix ++ describe e)]
                  /\ isError resp = Some true)
    /\ (forall r, snd body = inr r -> resp = r /\ isError resp = None)
    /\ (existsb failed t = true -> isError resp = Some true)
    /\ (forall ev e, In ev t -> failure ev = Some e ->
                     content resp = [text_content (prefix ++ describe e)]
                     \/ op ev = close)
    /\ count is_launch t = 1%nat
    /\ (count is_goto t <= 1)%nat.

(** The first driver call of [h] is [first]; every launch is headless;
    every navigation waits for [waitUntil] under [timeout] ms; and a
    response without [isError] implies a navigation with these options. *)
Definition drives (h : Handler) (w : World) (first : Op) (waitUntil : string)
           (timeout : Z) : Prop :=
  let t := trace_of h w in
  hd_error (ops t) = Some first
  /\ launches_headless t
  /\ navigates_with waitUntil timeout t
  /\ (forall resp,
         completion_of h w = inr (Returned resp) -> isError resp = None ->
         exists u, In (goto u waitUntil timeout) (ops t)).

(** The value of a field of a JSON object. *)
Definition field (key : string) (fields : list (string * json)) : option json :=
  option_map snd (find (fun kv => fst kv =? key) fields).

(** The body of a successful [simulate_colorblind] response. *)
Definition simulation_result (H : Host) (w : World) (url type : string)
           (resp : Response) : Prop :=
  exists outputPath,
    content resp =
    [text_content
       (JSON_stringify H
          (JObject [ ("url", JString url);
                     ("type", JString type);
                     ("outputPath", JString outputPath);
                     ("timestamp", JString (now_ISO w));
                     ("message", JString ("Screenshot saved with " ++ type ++ " simulation")) ])
          2)].

(** The body of a successful [check_accessibility] response. *)
Definition accessibility_result (H : Host) (w : World) (url : string)
           (resp : Response) : Prop :=
  exists results,
    axe_run w = AxeDone results
    /\ content resp =
       [text_content
          (JSON_stringify H
             (JObject
                [ ("url", JString url);
                  ("timestamp", JString (now_ISO w));
                  ("violations",
                   JArray
                     (map (fun v =>
                             JObject
                               [ ("impact", JString (impact v));
                                 ("description", JString (description v));
                                 ("help", JString (help v));
                                 ("helpUrl", JString (helpUrl v));
                                 ("nodes",
                                  JArray
                                    (map (fun n =>
                                            JObject
                                              [ ("html", JString (html n));
                                                ("failureSummary",
                                                 JString (failureSummary n)) ])
                                         (nodes v))) ])
                          (violations results)));
                  ("passes", JNumber (Z.of_nat (List.length (passes results))));
                  ("inapplicable", JNumber (Z.of_nat (List.length (inapplicable results))));
                  ("incomplete", JNumber (Z.of_nat (List.length (incomplete results)))) ])
             2)].

(** Every navigation of [h] goes to the rewritten [url]; a response
    without [isError] has navigated there and carries the original [url]
    in the [url] field of its JSON body. *)
Definition navigates_rewritten (H : Host) (h : Handler) (w : World) (url : string)
           (waitUntil : string) (timeout : Z) : Prop :=
  let t := trace_of h w in
  navigates_to (Url.rewritten url) t
  /\ (forall resp,
         completion_of h w = inr (Returned resp) -> isError resp = None ->
         In (goto (Url.rewritten url) waitUntil timeout) (ops t)
         /\ exists fields,
              content resp = [text_content (JSON_stringify H (JObject fields) 2)]
              /\ field "url" fields = Some (JString url)).

(** ** Scenarios *)

Definition no_results : AxeResults :=
  {| violations := []; passes := []; inapplicable := []; incomplete := [] |}.

(** A world in which no driver call rejects and the audit succeeds. *)
Definition calm (results : AxeResults) (now : string) (dir : option string) : World :=
  {| outcome := fun _ _ => None;
     axe_run := AxeDone results;
     now_ISO := now;
     MCP_OUTPUT_DIR := dir |}.

Definition name_not_resolved : Thrown :=
  Error "net::ERR_NAME_NOT_RESOLVED at https://www.example.invalid".

(** A world in which navigation rejects and every other call succeeds. *)
Definition unreachable : World :=
  {| outcome := fun _ o => if is_goto o then Some name_not_resolved else None;
     axe_run := AxeDone no_results;
     now_ISO := "2025-01-01T00:00:00.000Z";
     MCP_OUTPUT_DIR := None |}.

(** A world in which navigation rejects and so does every [close]. *)
Definition crashed : World :=
  {| outcome := fun _ o =>
                  if is_goto o then Some (Error "Navigating frame was detached")
                  else if is_close o then Some (Error "Protocol error: Connection closed")
                  else None;
     axe_run := AxeDone no_results;
     now_ISO := "2025-01-01T00:00:00.000Z";
     MCP_OUTPUT_DIR := None |}.

Definition check_request (url : string) : CallToolRequest :=
  {| name := "check_accessibility"; arguments := object [("url", str url)] |}.

Definition simulate_request (url type : string) : CallToolRequest :=
  {| name := "simulate_colorblind";
     arguments := object [("url", str url); ("type", str type)] |}.

Definition sample_results : AxeResults :=
  {| violations :=
       [ {| impact := "serious";
            description := "Ensures images have alternate text";
            help := "Images must have alternate text";
            helpUrl := "https://dequeuniversity.com/rules/axe/image-alt";
            nodes := [ {| html := "<img src=a.png>";
                          failureSummary := "Fix any of the following" |} ] |} ];
     passes := [null; null; null];
     inapplicable := [null];
     incomplete := [] |}.

End Server.

(* ================================================================== *)
(** * A small host and a small page, to run the model on examples

    These are stand-ins that cover the inputs of the examples below
    (ASCII letters, decimal and hexadecimal integer literals, integral
    numbers); no theorem depends on them. *)

Module Demo.
Import Num Color.
Local Open Scope string_scope.

Definition lower (c : ascii) : ascii :=
  let n := nat_of_ascii c in
  if ((65 <=? n)%nat && (n <=? 90)%nat) then ascii_of_nat (n + 32) else c.

Fixpoint lower_string (s : string) : string :=
  match s with
  | EmptyString => EmptyString
  | String c s' => String (lower c) (lower_string s')
  end.

Definition digit (radix : Z) (c : ascii) : option Z :=
  let n := Z.of_nat (nat_of_ascii c) in
  let d := if ((48 <=? n) && (n <=? 57))%Z then Some (n - 48)%Z
           else if ((97 <=? n) && (n <=? 102))%Z then Some (n - 87)%Z
           else None in
  match d with
  | Some v => if (v <? radix)%Z then Some v else None
  | None => None
  end.

Fixpoint digits (radix : Z) (s : string) (acc : Z) : option Z :=
  match s with
  | EmptyString => Some acc
  | String c s' =>
    match digit radix c with
    | Some v => digits radix s' (radix * acc + v)%Z
    | None => None
    end
  end.

Definition number_of_literal (radix : Z) (s : string) (empty : number) : number :=
  match s with
  | EmptyString => empty
  | _ => match digits radix s 0 with
         | Some z => of_Z z
         | None => nan
         end
  end.

(** The integer an integral number denotes. *)
Definition to_Z (x : number) : Z :=
  match Prim2SF x with
  | SpecFloat.S754_finite sign m e =>
    let v := if (0 <=? e)%Z then (Z.pos m * 2 ^ e)%Z else (Z.pos m / 2 ^ (- e))%Z in
    if sign then (- v)%Z else v
  | _ => 0%Z
  end.

Fixpoint decimal (fuel : nat) (n : Z) (acc : string) : string :=
  match fuel with
  | O => acc
  | S fuel' =>
    let acc' := String (ascii_of_nat (Z.to_nat (48 + n mod 10))) acc in
    if (n <? 10)%Z then acc' else decimal fuel' (n / 10) acc'
  end.

Definition show_Z (z : Z) : string :=
  if (z <? 0)%Z then String "-" (decimal 20 (- z) EmptyString)
  else decimal 20 z EmptyString.

Definition show_number (x : number) : string :=
  if is_nan x then "NaN" else show_Z (to_Z x).

Definition quote : string := String (ascii_of_nat 34) EmptyString.

Fixpoint show_json (j : json) : string :=
  match j with
  | JString s => quote ++ s ++ quote
  | JNumber n => show_Z n
  | JArray items =>
    "[" ++ fold_right (fun x acc => show_json x ++ "," ++ acc) "" items ++ "]"
  | JObject fields =>
    "{" ++ fold_right
             (fun kv acc => quote ++ fst kv ++ quote ++ ":" ++ show_json (snd kv) ++ "," ++ acc)
             "" fields ++ "}"
  end.

Definition host : Host :=
  {| toLowerCase := lower_string;
     Number := fun s => number_of_literal 10 s 0%float;
     parseInt := fun s radix => number_of_literal radix s nan;
     Number_toString := show_number;
     JSON_stringify := fun j _ => show_json j;
     path_join := fun a b => a ++ "/" ++ b;
     path_invalid_arg := fun _ => "The path argument must be of type string" |}.

(** A page as the list of its elements' computed [(color, backgroundColor)];
    an element is its index, and an assignment to [el.style] shows up as
    the computed value. *)
Definition Document := list (string * string).

Definition querySelectorAll (d : Document) : list nat := seq 0 (List.length d).

Definition getComputedStyle (d : Document) (el : nat) : Page.ComputedStyle :=
  let cs := nth el d (Page.transparent, Page.transparent) in
  {| Page.color := fst cs; Page.backgroundColor := snd cs |}.

Fixpoint update (d : Document) (el : nat) (f : string * string -> string * string)
  : Document :=
  match d, el with
  | [], _ => []
  | cs :: rest, O => f cs :: rest
  | cs :: rest, S el' => cs :: update rest el' f
  end.

Definition setStyle (d : Document) (el : nat) (p : Page.StyleProperty) (v : string)
  : Document :=
  match p with
  | Page.style_color => update d el (fun cs => (v, snd cs))
  | Page.style_backgroundColor => update d el (fun cs => (fst cs, v))
  end.

Definition page : Document :=
  [ ("rgb(0, 0, 0)", "rgba(0, 0, 0, 0)");
    ("rgb(255, 255, 0)", "rgb(255, 255, 255)");
    ("RGBA(12,200,255,0)", "#ff0000") ].

End Demo.

(* ================================================================== *)
(** * Further observations on the page script and the handlers *)

Module Observations.
Import Num Color Str JsValue Server.
Local Open Scope string_scope.

(** A field of a functional colour notation: no comma and no parenthesis. *)
Definition plain_char (c : ascii) : bool :=
  negb (Ascii.eqb c "," || Ascii.eqb c "(" || Ascii.eqb c ")").

Fixpoint plain (s : string) : bool :=
  match s with
  | EmptyString => true
  | String c s' => plain_char c && plain s'
  end.

(** The code unit [c] does not occur in [s]. *)
Fixpoint lacks (c : ascii) (s : string) : bool :=
  match s with
  | EmptyString => true
  | String c' s' => negb (Ascii.eqb c c') && lacks c s'
  end.

(** [[x; y; ...].join(',')] for a non-empty array. *)
Fixpoint join_comma (x : string) (rest : list string) : string :=
  match rest with
  | [] => x
  | y :: rest' => x ++ "," ++ join_comma y rest'
  end.

(** Both computed values of an element are the transparent colour. *)
Definition both_transparent (cs : Page.ComputedStyle) : bool :=
  (Page.color cs =? Page.transparent) && (Page.backgroundColor cs =? Page.transparent).

(** The driver calls made after the first rejected one. *)
Fixpoint after_first_failure (t : list Event) : option (list Op) :=
  match t with
  | [] => None
  | ev :: rest => if failed ev then Some (ops rest) else after_first_failure rest
  end.

(** A [close] call that rejected. *)
Definition failed_close (ev : Event) : bool := is_close (op ev) && failed ev.

Definition is_screenshot (o : Op) : bool :=
  match o with screenshot _ _ => true | _ => false end.

(** The file name [handleColorBlindSimulation] hands to [join], when it
    is a string: [args.outputPath || `colorblind_${args.type}.png`]. *)
Definition screenshot_name (outputPath : value) (type : string) : option string :=
  as_string (or_else outputPath (str ("colorblind_" ++ type ++ ".png"))).

(** The [enum] a tool's schema declares for a property. *)
Definition enum_of (tool : Tool) (property : string) : list string :=
  match find (fun p => prop_name p =? property) (properties tool) with
  | Some p => match prop_enum p with Some values => values | None => [] end
  | None => []
  end.

(** The second tool [ListTools] advertises. *)
Definition no_tool : Tool :=
  {| tool_name := ""; tool_description := ""; properties := []; required := [] |}.

Definition simulate_tool : Tool := nth 1 ListTools no_tool.

(** Some required property of [tool] is not a string in [arguments]. *)
Definition lacks_required (tool : Tool) (arguments : value) : bool :=
  existsb (fun key => match as_string (get arguments key) with
                      | Some _ => false
                      | None => true
                      end) (required tool).

End Observations.

(* ================================================================== *)
(** * Tactics *)

Module Tactics.
Import JsValue Server.

(** Symbolic execution of a handler body: unfold the monad, then split on
    what the world answers to each call, in program order. *)
Ltac reduce :=
  cbv beta iota zeta delta
      [bind call emit ret throw lift ask assign_browser read_browser try_catch run
       reject record trace browser start fst snd app List.length
       trace_of completion_of
       simulation_try simulation_catch accessibility_try accessibility_catch].

Ltac explore :=
  reduce;
  repeat (match goal with
          | |- context [outcome ?w ?n ?o] =>
            let E := fresh "E" in destruct (outcome w n o) eqn:E
          | |- context [join ?H ?d ?p] =>
            let E := fresh "J" in destruct (join H d p) eqn:E
          | |- context [axe_run ?w] =>
            let E := fresh "A" in destruct (axe_run w) eqn:E
          end; reduce).

(** The clauses of [catches_and_reports] on an explicit trace. *)
Ltac failed_event :=
  let ev := fresh "ev" in
  let e := fresh "e" in
  let Hin := fresh "Hin" in
  let Hfail := fresh "Hfail" in
  intros ev e Hin Hfail; cbn in Hin;
  repeat match goal with
         | D : _ \/ _ |- _ => destruct D as [D|D]
         end;
  try contradiction; subst ev; cbn in Hfail; try discriminate;
  inversion Hfail; subst; ((left; reflexivity) || (right; reflexivity)).

Ltac report :=
  split; [cbn; intros ? X; inversion X; subst; split; reflexivity || discriminate|];
  split; [cbn; intros ? X; inversion X; subst; split; reflexivity || discriminate|];
  split; [cbn; intros; reflexivity || discriminate|];
  split; [failed_event|];
  split; [reflexivity | cbn; lia].

(** A [Forall] over the ops of an explicit trace. *)
Ltac forall_ops := cbn; repeat (constructor; try easy).

End Tactics.

(* ================================================================== *)
(** * Checks of the numeric model on concrete values *)

Module NumExamples.
Import Num Color.
Local Open Scope float_scope.

Example Math_round_ties :
  map Math_round [2.5; -2.5; 0.5; -0.5; 1.5; -1.5; 0.49999999999999994; -0.4]
  = [3; -2; 1; -0; 2; -1; 0; -0].
Proof. vm_compute. reflexivity. Qed.

Example Math_round_values :
  map Math_round [286.875; 254.5; -255.6; 3; 4503599627370495.5; 1e300; 1e-320]
  = [287; 255; -256; 3; 4503599627370496; 1e300; 0].
Proof. vm_compute. reflexivity. Qed.

(** On every quarter [n/4] up to 350, [Math_round] is [floor (n/4 + 1/2)]. *)
Example Math_round_quarters :
  forallb (fun n => PrimFloat.Leibniz.eqb (Math_round (of_Z n / 4)) (of_Z ((n + 2) / 4)))
          (map Z.of_nat (seq 0 1401)) = true.
Proof. vm_compute. reflexivity. Qed.

Example Math_round_special :
  Math_round infinity = infinity /\ is_nan (Math_round nan) = true
  /\ Math_round neg_infinity = neg_infinity.
Proof. vm_compute. repeat split. Qed.

Example simulate_white_protanopia :
  simulate (rgb 255 255 255) "protanopia" = inr (rgb 287 285 193).
Proof. vm_compute. reflexivity. Qed.

Example simulate_unknown_type :
  simulate (rgb 1 2 3) "achromatopsia"
  = inl (TypeError "Cannot read properties of undefined (reading '0')").
Proof. vm_compute. reflexivity. Qed.

End NumExamples.

(* ================================================================== *)
(** * Properties of the colour arithmetic *)

Module ColorFacts.
Import Num Color.
Local Open Scope float_scope.

(** Binary64 multiplication is commutative. *)
Lemma number_mul_comm (x y : number) : x * y = y * x.
Proof.
  apply Prim2SF_inj. rewrite !FloatAxioms.mul_spec.
  unfold SF64mul, SpecFloat.SFmul.
  destruct (Prim2SF x) as [sx|sx| |sx mx ex], (Prim2SF y) as [sy|sy| |sy my ey];
    try reflexivity; rewrite (xorb_comm sx sy); try reflexivity.
  now rewrite Pos.mul_comm, Z.add_comm.
Qed.

Lemma compress_In (x : number) (l : list number) : In x l -> In x (compress l).
Proof.
  induction l as [|a tl IH]; [easy|].
  intros [->|Hin]; cbn [compress]; destruct tl as [|y tl'].
  - now left.
  - destruct (PrimFloat.Leibniz.eqb x y) eqn:E.
    + apply FloatAxioms.Leibniz.eqb_spec in E. subst y. apply IH. now left.
    + now left.
  - destruct Hin.
  - destruct (PrimFloat.Leibniz.eqb a y); [now apply IH | right; now apply IH].
Qed.

Lemma bytes_In (z : Z) : (0 <= z <= 255)%Z -> In (of_Z z) bytes.
Proof.
  intros Hz. unfold bytes. apply in_map, in_map_iff.
  exists (Z.to_nat z). split; [lia|]. apply in_seq. lia.
Qed.

Lemma products_In (m : number) (z : Z) :
  (0 <= z <= 255)%Z -> In (scaled m (of_Z z)) (products m).
Proof. intros Hz. apply compress_In, in_map, bytes_In, Hz. Qed.

Lemma column_ok_sound lo hi L0 L1 L2 p0 p1 p2 :
  column_ok lo hi L0 L1 L2 = true ->
  In p0 L0 -> In p1 L1 -> In p2 L2 ->
  between lo hi (Math_round ((p0 + p1 + p2) * 255)) = true.
Proof.
  unfold column_ok. intros H H0 H1 H2.
  rewrite forallb_forall in H. specialize (H _ H0).
  rewrite forallb_forall in H. specialize (H _ H1). cbv zeta in H.
  rewrite forallb_forall in H. exact (H _ H2).
Qed.

Lemma protanopia_ok : matrix_ok 0 338 protanopia = true.
Proof. vm_cast_no_check (eq_refl true). Qed.

Lemma deuteranopia_ok : matrix_ok 0 338 deuteranopia = true.
Proof. vm_cast_no_check (eq_refl true). Qed.

Lemma tritanopia_ok : matrix_ok 0 338 tritanopia = true.
Proof. vm_cast_no_check (eq_refl true). Qed.

End ColorFacts.

(* ================================================================== *)
(** * The colour transform: range and reference *)

Module ColorTheory.
Import Num Color ColorFacts.
Local Open Scope float_scope.

Lemma supported_matrix (type : string) :
  supported type ->
  colorBlindnessMatrices type = Some protanopia
  \/ colorBlindnessMatrices type = Some deuteranopia
  \/ colorBlindnessMatrices type = Some tritanopia.
Proof.
  intros [->|[->| ->]]; [left | right; left | right; right]; reflexivity.
Qed.

(** What [simulate] computes once the matrix is found. *)
Lemma simulate_matrix (c : RGB) (type : string) (M : list number) :
  colorBlindnessMatrices type = Some M ->
  simulate c type =
  inr (rgb (Math_round ((ToNumber (r c) / 255 * at_ M 0 + ToNumber (g c) / 255 * at_ M 3
                         + ToNumber (b c) / 255 * at_ M 6) * 255))
           (Math_round ((ToNumber (r c) / 255 * at_ M 1 + ToNumber (g c) / 255 * at_ M 4
                         + ToNumber (b c) / 255 * at_ M 7) * 255))
           (Math_round ((ToNumber (r c) / 255 * at_ M 2 + ToNumber (g c) / 255 * at_ M 5
                         + ToNumber (b c) / 255 * at_ M 8) * 255))).
Proof. intros HM. unfold simulate. rewrite HM. reflexivity. Qed.

Lemma matrix_ok_sound lo hi (M : list number) (x y z : Z) (i : nat) :
  matrix_ok lo hi M = true ->
  (i < 3)%nat ->
  (0 <= x <= 255)%Z -> (0 <= y <= 255)%Z -> (0 <= z <= 255)%Z ->
  between lo hi
    (Math_round ((of_Z x / 255 * at_ M i + of_Z y / 255 * at_ M (3 + i)
                  + of_Z z / 255 * at_ M (6 + i)) * 255)) = true.
Proof.
  intros Hok Hi Hx Hy Hz.
  assert (Hin : In i [0; 1; 2]%nat) by (cbn; lia).
  pose proof (proj1 (forallb_forall _ _) Hok i Hin) as Hcol. cbv beta in Hcol.
  exact (@column_ok_sound lo hi
           (products (at_ M i)) (products (at_ M (3 + i))) (products (at_ M (6 + i)))
           (scaled (at_ M i) (of_Z x)) (scaled (at_ M (3 + i)) (of_Z y))
           (scaled (at_ M (6 + i)) (of_Z z)) Hcol
           (products_In _ Hx) (products_In _ Hy) (products_In _ Hz)).
Qed.

Lemma simulate_in_range lo hi (type : string) (M : list number) (x y z : Z) :
  colorBlindnessMatrices type = Some M ->
  matrix_ok lo hi M = true ->
  (0 <= x <= 255)%Z -> (0 <= y <= 255)%Z -> (0 <= z <= 255)%Z ->
  exists out,
    simulate (rgb (of_Z x) (of_Z y) (of_Z z)) type = inr out
    /\ components_in lo hi out = true.
Proof.
  intros HM Hok Hx Hy Hz. eexists. split; [apply (simulate_matrix _ _ HM)|].
  unfold components_in, rgb, component_in; cbn [r g b ToNumber].
  pose proof (@matrix_ok_sound lo hi M x y z 0 Hok ltac:(lia) Hx Hy Hz) as R0.
  pose proof (@matrix_ok_sound lo hi M x y z 1 Hok ltac:(lia) Hx Hy Hz) as R1.
  pose proof (@matrix_ok_sound lo hi M x y z 2 Hok ltac:(lia) Hx Hy Hz) as R2.
  cbn [Nat.add] in R0, R1, R2.
  rewrite R0, R1, R2. reflexivity.
Qed.




(** The first half of C3: [simulate] is the reference product. *)
Lemma simulate_reference (c : RGB) (type : string) (M : list number) :
  colorBlindnessMatrices type = Some M ->
  simulate c type = inr (reference_transform c M).
Proof.
  intros HM. rewrite (simulate_matrix _ _ HM).
  unfold reference_transform, reference_v, sum_over.
  cbn [fold_left Nat.mul Nat.add at_ nth_error ToNumber].
  now rewrite !(number_mul_comm 255).
Qed.

End ColorTheory.

(* ================================================================== *)
(** * URL rewriting: the regular expression against the specification *)

Module UrlTheory.
Import Str Url.

Lemma startsWith_app (a b s : string) :
  startsWith (a ++ b) s = startsWith a s && startsWith b (drop (String.length a) s).
Proof.
  revert s. induction a as [|c a IH]; intros s; [reflexivity|].
  destruct s as [|c' s]; [reflexivity|].
  cbn [append startsWith String.length drop]. rewrite IH. now rewrite andb_assoc.
Qed.

Lemma drop_drop (n m : nat) (s : string) : drop n (drop m s) = drop (m + n) s.
Proof.
  revert s. induction m as [|m IH]; intros s; [reflexivity|].
  destruct s as [|c s]; cbn [drop Nat.add]; [now destruct n | apply IH].
Qed.

(** The anchored replacement is the rewriting the specification words. *)
Lemma urlToUse_rewritten (url : string) : urlToUse url = rewritten url.
Proof.
  unfold urlToUse, rewritten, replace_anchored, scheme_www, strip, strip_scheme.
  cbn [match_here String.length].
  change "https://" with ("http" ++ ("s" ++ "://"))%string.
  change "http://" with ("http" ++ "://")%string.
  rewrite !startsWith_app. cbn [String.length]. rewrite !drop_drop. cbn [Nat.add].
  destruct (startsWith "http" url), (startsWith "s" (drop 4 url)),
    (startsWith "://" (drop 5 url)), (startsWith "://" (drop 4 url));
    cbn [andb]; rewrite ?drop_drop; cbn [Nat.add];
    repeat match goal with
           | |- context [startsWith "www." ?x] => destruct (startsWith "www." x)
           end; reflexivity.
Qed.

Example urlToUse_examples :
  map urlToUse ["example.com"; "http://example.com"; "https://www.example.com/a";
                "www.example.com"; "HTTP://example.com"; "ftp://example.com"; ""]
  = ["https://www.example.com"; "https://www.example.com"; "https://www.example.com/a";
     "https://www.example.com"; "https://www.HTTP://example.com";
     "https://www.ftp://example.com"; "https://www."].
Proof. vm_compute. reflexivity. Qed.

End UrlTheory.

(* ================================================================== *)
(** * [parseColor] and the injected script *)

Module PageTheory.
Import Num Color Str Page ColorFacts ColorTheory.
Local Open Scope float_scope.

Example parseColor_examples :
  map (parseColor Demo.host)
      ["rgb(255, 255, 0)"; "RGBA( 12 ,200,255, 0)"; "#FF8000"; "rgb(7)"; "red"; ""]
  = [rgb 255 255 0; rgb 12 200 255; rgb 255 128 0; mkRGB (Some 7%float) None None;
     rgb 0 0 0; rgb 0 0 0].
Proof. vm_compute. reflexivity. Qed.

Lemma parseColor_injected_eq (H : Host) (color : string) :
  parseColor_injected H color = parseColor H color.
Proof. reflexivity. Qed.



Section Script.
Variable H : Host.
Variables Document Element : Type.
Variable querySelectorAll : Document -> list Element.
Variable getComputedStyle : Document -> Element -> ComputedStyle.
Variable setStyle : Document -> Element -> StyleProperty -> string -> Document.

Lemma visit_reference (type : string) (M : list number) (d : Document) (el : Element) :
  colorBlindnessMatrices type = Some M ->
  visit H getComputedStyle setStyle type d el
  = inr (visit_ref H getComputedStyle setStyle M d el).
Proof.
  intros HM. unfold visit, visit_ref, transform_ref.
  rewrite !(simulate_reference _ _ HM).
  destruct (color (getComputedStyle d el) =? transparent)%string;
    destruct (backgroundColor (getComputedStyle d el) =? transparent)%string;
    reflexivity.
Qed.

Lemma forEach_reference (type : string) (M : list number) (els : list Element)
      (d : Document) :
  colorBlindnessMatrices type = Some M ->
  forEach H getComputedStyle setStyle type els d
  = inr (fold_left (visit_ref H getComputedStyle setStyle M) els d).
Proof.
  intros HM. revert d. induction els as [|el rest IH]; intros d; [reflexivity|].
  cbn [forEach fold_left]. rewrite (@visit_reference type M d el HM). apply IH.
Qed.

End Script.



Example inject_page :
  inject Demo.host Demo.querySelectorAll Demo.getComputedStyle Demo.setStyle
         "protanopia" Demo.page
  = inr [ ("rgb(0, 0, 0)", "rgba(0, 0, 0, 0)");
          ("rgb(287, 223, 0)", "rgb(287, 285, 193)");
          ("rgb(118, 155, 193)", "rgb(145, 110, 0)") ].
Proof. vm_compute. reflexivity. Qed.

End PageTheory.

(* ================================================================== *)
(** * The request handlers *)

Module ServerTheory.
Import JsValue Server Tactics.
Local Open Scope string_scope.

Lemma simulation_valid (H : Host) (request : CallToolRequest) (url type : string) :
  valid_simulation request url type ->
  handleColorBlindSimulation H request
  = run (try_catch
           (simulation_try H url type (get (arguments request) "outputPath")
                           (get (arguments request) "userAgent"))
           (simulation_catch)).
Proof.
  intros (Ht & Hu & Hty). unfold handleColorBlindSimulation.
  now rewrite Ht, Hu, Hty.
Qed.

Lemma accessibility_valid (H : Host) (request : CallToolRequest) (url : string) :
  valid_accessibility request url ->
  handleAccessibilityCheck H request
  = run (try_catch (accessibility_try H url (agent_of request)) accessibility_catch).
Proof.
  intros (Ht & Hu). unfold handleAccessibilityCheck, agent_of.
  now rewrite Ht, Hu.
Qed.

Lemma CallTool_dispatch (H : Host) (request : CallToolRequest) :
  (name request = "check_accessibility" ->
   CallTool H request = handleAccessibilityCheck H request)
  /\ (name request = "simulate_colorblind" ->
      CallTool H request = handleColorBlindSimulation H request).
Proof.
  unfold CallTool. split; intros ->; reflexivity.
Qed.

(** C4: the server exposes exactly two tools.  [ListTools] answers with
    [check_accessibility] and [simulate_colorblind], in that order; a
    [CallTool] request is dispatched to the handler of its tool; and a
    request naming any other tool throws
    [McpError(ErrorCode.MethodNotFound)] without calling the driver. *)
Theorem C4_two_tools (H : Host) (w : World) (request : CallToolRequest) :
  map tool_name ListTools = ["check_accessibility"; "simulate_colorblind"]
  /\ (name request = "check_accessibility" ->
      CallTool H request = handleAccessibilityCheck H request)
  /\ (name request = "simulate_colorblind" ->
      CallTool H request = handleColorBlindSimulation H request)
  /\ (name request <> "check_accessibility" ->
      name request <> "simulate_colorblind" ->
      trace_of (CallTool H request) w = []
      /\ completion_of (CallTool H request) w
         = inr (Threw (mkMcpError MethodNotFound ("Unknown tool: " ++ name request)))).
Proof.
  split; [reflexivity|].
  split; [apply CallTool_dispatch|].
  split; [apply CallTool_dispatch|].
  intros Hcheck Hsim. unfold CallTool.
  destruct (String.eqb_spec (name request) "check_accessibility") as [E|_];
    [contradiction|].
  destruct (String.eqb_spec (name request) "simulate_colorblind") as [E|_];
    [contradiction|].
  split; reflexivity.
Qed.

Lemma C4_two_tools_witness :
  map tool_name ListTools = ["check_accessibility"; "simulate_colorblind"]
  /\ trace_of (CallTool Demo.host {| name := "analyze_url"; arguments := undefined |})
              (calm no_results "" None) = []
  /\ completion_of (CallTool Demo.host {| name := "analyze_url"; arguments := undefined |})
                   (calm no_results "" None)
     = inr (Threw (mkMcpError MethodNotFound "Unknown tool: analyze_url")).
Proof.
  destruct (C4_two_tools Demo.host (calm no_results "" None)
                         {| name := "analyze_url"; arguments := undefined |})
    as (Hlist & _ & _ & Hother).
  split; [exact Hlist|].
  apply Hother; discriminate.
Defined.

(** C9: parameter validation comes before any browser work.  A
    [simulate_colorblind] call whose arguments are falsy (absent), or whose
    [url] or [type] is not a string, throws
    [McpError(InvalidParams, 'URL and type parameters are required')] with
    no driver call made; a [check_accessibility] call whose arguments are
    falsy or whose [url] is not a string throws
    [McpError(InvalidParams, 'URL parameter is required')] likewise. *)
Theorem C9_validation_first (H : Host) (w : World) (request : CallToolRequest) :
  (name request = "simulate_colorblind" ->
   truthy (arguments request) = false
   \/ as_string (get (arguments request) "url") = None
   \/ as_string (get (arguments request) "type") = None ->
   trace_of (CallTool H request) w = []
   /\ completion_of (CallTool H request) w
      = inr (Threw (mkMcpError InvalidParams "URL and type parameters are required")))
  /\ (name request = "check_accessibility" ->
      truthy (arguments request) = false
      \/ as_string (get (arguments request) "url") = None ->
      trace_of (CallTool H request) w = []
      /\ completion_of (CallTool H request) w
         = inr (Threw (mkMcpError InvalidParams "URL parameter is required"))).
Proof.
  split; intros Hname Hbad.
  - rewrite (proj2 (CallTool_dispatch H request) Hname).
    unfold handleColorBlindSimulation.
    destruct (truthy (arguments request)); cbn [negb].
    + destruct Hbad as [Hbad|[Hbad|Hbad]]; [discriminate| |]; rewrite Hbad.
      * split; reflexivity.
      * destruct (as_string (get (arguments request) "url")); split; reflexivity.
    + split; reflexivity.
  - rewrite (proj1 (CallTool_dispatch H request) Hname).
    unfold handleAccessibilityCheck.
    destruct (truthy (arguments request)); cbn [negb].
    + destruct Hbad as [Hbad|Hbad]; [discriminate|]; rewrite Hbad.
      split; reflexivity.
    + split; reflexivity.
Qed.

Lemma C9_validation_first_witness :
  (trace_of (CallTool Demo.host
               {| name := "simulate_colorblind";
                  arguments := object [("url", str "example.com"); ("type", num 3%float)] |})
            (calm no_results "" None) = []
   /\ completion_of (CallTool Demo.host
               {| name := "simulate_colorblind";
                  arguments := object [("url", str "example.com"); ("type", num 3%float)] |})
            (calm no_results "" None)
      = inr (Threw (mkMcpError InvalidParams "URL and type parameters are required")))
  /\ (trace_of (CallTool Demo.host {| name := "check_accessibility"; arguments := undefined |})
               (calm no_results "" None) = []
      /\ completion_of (CallTool Demo.host
                          {| name := "check_accessibility"; arguments := undefined |})
                       (calm no_results "" None)
         = inr (Threw (mkMcpError InvalidParams "URL parameter is required"))).
Proof.
  split.
  - apply (proj1 (C9_validation_first Demo.host (calm no_results "" None)
                    {| name := "simulate_colorblind";
                       arguments := object [("url", str "example.com");
                                            ("type", num 3%float)] |}));
      [reflexivity | right; right; reflexivity].
  - apply (proj2 (C9_validation_first Demo.host (calm no_results "" None)
                    {| name := "check_accessibility"; arguments := undefined |}));
      [reflexivity | left; reflexivity].
Defined.


(** ** Browser lifecycle *)

(** [handleColorBlindSimulation] closes the browser it launched whenever
    [browser.close()] itself does not reject. *)
Lemma simulation_closes_browser (H : Host) (w : World) (request : CallToolRequest)
      (url type : string) :
  valid_simulation request url type ->
  (forall n, outcome w n close = None) ->
  browser_running (trace_of (handleColorBlindSimulation H request) w) = false.
Proof.
  intros Hv Hclose. rewrite (simulation_valid H Hv).
  explore; try reflexivity;
    match goal with
    | E : outcome _ _ close = Some _ |- _ => now rewrite Hclose in E
    end.
Qed.

(** [handleAccessibilityCheck] leaves the browser running whenever a call
    between [launch] and [close] rejects: its [catch] does not close. *)
Lemma accessibility_leaks_browser (H : Host) (w : World) (request : CallToolRequest)
      (url : string) :
  valid_accessibility request url ->
  let t := trace_of (handleAccessibilityCheck H request) w in
  hd_error t = Some {| op := launch true (launch_args ++ ["--dns-prefetch-disable"]);
                       failure := None |} ->
  count is_close t = 0%nat ->
  browser_running t = true.
Proof.
  intros Hv. rewrite (accessibility_valid H Hv).
  explore; cbn; intros Hhd Hcount; try reflexivity; try discriminate.
Qed.

(** C2 (the code diverges): in a world where navigation rejects and every
    other call succeeds, [check_accessibility] returns its error response
    while the browser it launched is still running and no [close] was
    attempted; [simulate_colorblind], in the same world, closes it. *)
Theorem C2_accessibility_leaves_browser_running :
  completion_of (CallTool Demo.host (check_request "example.invalid")) unreachable
  = inr (Returned (error_response "Error analyzing URL: " name_not_resolved))
  /\ browser_running (trace_of (CallTool Demo.host (check_request "example.invalid"))
                               unreachable) = true
  /\ count is_close (trace_of (CallTool Demo.host (check_request "example.invalid"))
                              unreachable) = 0%nat
  /\ completion_of (CallTool Demo.host (simulate_request "example.invalid" "protanopia"))
                   unreachable
     = inr (Returned (error_response "Error simulating color blindness: "
                                     name_not_resolved))
  /\ browser_running
       (trace_of (CallTool Demo.host (simulate_request "example.invalid" "protanopia"))
                 unreachable) = false.
Proof.
  repeat split; vm_compute; reflexivity.
Qed.

(** ** Failure handling *)

(** C5, as stated, fails for an error raised by the clean-up: when
    navigation rejects and [browser.close()] rejects too,
    [simulate_colorblind] catches both, and the response carries the
    navigation error only; the message of the [close] error is nowhere in
    its text. *)
Lemma C5_cleanup_error_counterexample :
  In {| op := close; failure := Some (Error "Protocol error: Connection closed") |}
     (trace_of (CallTool Demo.host (simulate_request "example.invalid" "protanopia")) crashed)
  /\ completion_of (CallTool Demo.host (simulate_request "example.invalid" "protanopia"))
                   crashed
     = inr (Returned
              {| content :=
                   [text_content
                      "Error simulating color blindness: Navigating frame was detached"];
                 isError := Some true |})
  /\ Str.includes "Protocol error: Connection closed"
                  "Error simulating color blindness: Navigating frame was detached"
     = false.
Proof.
  split; [vm_compute; tauto|].
  split; vm_compute; reflexivity.
Qed.

(** C5 (amended): failure handling is catch-and-report.  For a request
    that passes validation, in every world, the handler returns a response
    and never lets a thrown value escape; when the [try] block raises [e]
    the response has [isError] true and the single text content
    [prefix ++ message of e]; when it raises nothing the response is the
    block's own, without [isError]; a rejected driver call always ends in
    an error response, and the only rejection that is not the reported
    one is a [close] (the clean-up in the [catch] of [simulate_colorblind],
    swallowed by its nested [try]); the browser is launched exactly once
    and navigated at most once (nothing is retried). *)
Theorem C5_catch_and_report (H : Host) (w : World) (request : CallToolRequest)
        (url type : string) :
  (valid_simulation request url type ->
   catches_and_reports "Error simulating color blindness: "
     (simulation_try H url type (get (arguments request) "outputPath")
                     (get (arguments request) "userAgent") w start)
     (handleColorBlindSimulation H request) w)
  /\ (valid_accessibility request url ->
      catches_and_reports "Error analyzing URL: "
        (accessibility_try H url (agent_of request) w start)
        (handleAccessibilityCheck H request) w).
Proof.
  split; intros Hv; unfold catches_and_reports.
  - rewrite (simulation_valid H Hv).
    explore; eexists; (split; [reflexivity|]); report.
  - rewrite (accessibility_valid H Hv).
    explore; eexists; (split; [reflexivity|]); report.
Qed.


Lemma C5_catch_and_report_witness :
  catches_and_reports "Error simulating color blindness: "
    (simulation_try Demo.host "example.invalid" "protanopia" undefined undefined
                    crashed start)
    (handleColorBlindSimulation Demo.host (simulate_request "example.invalid" "protanopia"))
    crashed
  /\ catches_and_reports "Error analyzing URL: "
       (accessibility_try Demo.host "example.invalid" mac_agent crashed start)
       (handleAccessibilityCheck Demo.host (check_request "example.invalid"))
       crashed.
Proof.
  split.
  - apply (proj1 (C5_catch_and_report Demo.host crashed
                    (simulate_request "example.invalid" "protanopia")
                    "example.invalid" "protanopia")).
    repeat split; reflexivity.
  - apply (proj2 (C5_catch_and_report Demo.host crashed
                    (check_request "example.invalid") "example.invalid" "")).
    repeat split; reflexivity.
Defined.

(** ** Successful results *)

(** C6: each operation returns a structured result on success.  A
    [simulate_colorblind] response without [isError] is one text item
    whose JSON body has the fields [url], [type], [outputPath],
    [timestamp], [message]; a [check_accessibility] response without
    [isError] is one text item whose JSON body has [url], [timestamp],
    [violations] (each with [impact], [description], [help], [helpUrl] and
    [nodes] of [html] and [failureSummary]) and the counts [passes],
    [inapplicable], [incomplete]. *)
Theorem C6_structured_results (H : Host) (w : World) (request : CallToolRequest)
        (url type : string) :
  (valid_simulation request url type ->
   forall resp,
     completion_of (handleColorBlindSimulation H request) w = inr (Returned resp) ->
     isError resp = None ->
     simulation_result H w url type resp)
  /\ (valid_accessibility request url ->
      forall resp,
        completion_of (handleAccessibilityCheck H request) w = inr (Returned resp) ->
        isError resp = None ->
        accessibility_result H w url resp).
Proof.
  split; intros Hv resp.
  - rewrite (simulation_valid H Hv).
    explore; cbn; intros Hc Hok; inversion Hc; subst resp; try discriminate.
    eexists. reflexivity.
  - rewrite (accessibility_valid H Hv).
    explore; cbn; intros Hc Hok; inversion Hc; subst resp; try discriminate.
    eexists. split; [eassumption | reflexivity].
Qed.

Lemma C6_structured_results_witness :
  (exists resp,
      completion_of (handleColorBlindSimulation Demo.host
                       (simulate_request "example.com" "tritanopia"))
                    (calm sample_results "2025-01-01T00:00:00.000Z" None)
      = inr (Returned resp)
      /\ isError resp = None
      /\ simulation_result Demo.host (calm sample_results "2025-01-01T00:00:00.000Z" None)
                           "example.com" "tritanopia" resp)
  /\ (exists resp,
         completion_of (handleAccessibilityCheck Demo.host (check_request "example.com"))
                       (calm sample_results "2025-01-01T00:00:00.000Z" None)
         = inr (Returned resp)
         /\ isError resp = None
         /\ accessibility_result Demo.host
                                 (calm sample_results "2025-01-01T00:00:00.000Z" None)
                                 "example.com" resp).
Proof.
  split; eexists; (split; [vm_compute; reflexivity|]); (split; [reflexivity|]).
  - apply (proj1 (C6_structured_results Demo.host
                    (calm sample_results "2025-01-01T00:00:00.000Z" None)
                    (simulate_request "example.com" "tritanopia")
                    "example.com" "tritanopia"));
      [repeat split; reflexivity | vm_compute; reflexivity | reflexivity].
  - apply (proj2 (C6_structured_results Demo.host
                    (calm sample_results "2025-01-01T00:00:00.000Z" None)
                    (check_request "example.com") "example.com" ""));
      [repeat split; reflexivity | vm_compute; reflexivity | reflexivity].
Defined.

(** ** Launch and navigation *)





Example simulate_colorblind_run :
  (ops (trace_of (CallTool Demo.host (simulate_request "http://example.com" "tritanopia"))
                 (calm no_results "2025-01-01T00:00:00.000Z" None)),
   completion_of (CallTool Demo.host (simulate_request "http://example.com" "tritanopia"))
                 (calm no_results "2025-01-01T00:00:00.000Z" None))
  = ([ launch true launch_args; newPage; setViewport 1920 1080;
       setUserAgent (str windows_agent); setRequestInterception true;
       on_ "request"; on_ "response"; on_ "console";
       goto "https://www.example.com" "networkidle2" 120000;
       waitForSelector "body" 120000; setTimeout 5000;
       evaluate_simulation "tritanopia"; setTimeout 2000;
       screenshot "./output/colorblind_tritanopia.png" true; close ],
     inr (Returned
            {| content :=
                 [text_content
                    (Demo.show_json
                       (JObject [ ("url", JString "http://example.com");
                                  ("type", JString "tritanopia");
                                  ("outputPath", JString "./output/colorblind_tritanopia.png");
                                  ("timestamp", JString "2025-01-01T00:00:00.000Z");
                                  ("message",
                                   JString "Screenshot saved with tritanopia simulation") ]))];
               isError := None |})).
Proof. vm_compute. reflexivity. Qed.

End ServerTheory.

(* ================================================================== *)
(** * NaN in the colour transform *)

Module NaNTheory.
Import Num Color ColorFacts ColorTheory.
Local Open Scope float_scope.

Lemma Prim2SF_nan : Prim2SF nan = SpecFloat.S754_nan.
Proof. reflexivity. Qed.

Lemma mul_nan_l (x : number) : nan * x = nan.
Proof.
  apply Prim2SF_inj. rewrite FloatAxioms.mul_spec, Prim2SF_nan. reflexivity.
Qed.

Lemma mul_nan_r (x : number) : x * nan = nan.
Proof. rewrite number_mul_comm. apply mul_nan_l. Qed.

Lemma add_nan_l (x : number) : nan + x = nan.
Proof.
  apply Prim2SF_inj. rewrite FloatAxioms.add_spec, Prim2SF_nan. reflexivity.
Qed.

Lemma add_nan_r (x : number) : x + nan = nan.
Proof.
  apply Prim2SF_inj. rewrite FloatAxioms.add_spec, Prim2SF_nan.
  now destruct (Prim2SF x).
Qed.

Lemma div_nan_l (x : number) : nan / x = nan.
Proof.
  apply Prim2SF_inj. rewrite FloatAxioms.div_spec, Prim2SF_nan. reflexivity.
Qed.

Lemma Math_round_nan : Math_round nan = nan.
Proof. reflexivity. Qed.

Ltac nan_out :=
  repeat (rewrite ?div_nan_l, ?mul_nan_l, ?mul_nan_r, ?add_nan_l, ?add_nan_r,
            ?Math_round_nan);
  reflexivity.

(** X1: one missing or NaN component poisons the whole colour.  For every
    type whose lookup finds a matrix, if a component of the input is
    [undefined] or [NaN] then [window.simulate] returns
    [{r: NaN, g: NaN, b: NaN}]. *)
Theorem X1_simulate_nan (c : RGB) (type : string) (M : list number) :
  colorBlindnessMatrices type = Some M ->
  ToNumber (r c) = nan \/ ToNumber (g c) = nan \/ ToNumber (b c) = nan ->
  simulate c type = inr (rgb nan nan nan).
Proof.
  intros HM Hnan. rewrite (simulate_matrix _ _ HM).
  destruct Hnan as [E|[E|E]]; rewrite E; nan_out.
Qed.

Lemma X1_simulate_nan_witness :
  simulate (mkRGB (Some 7) None None) "deuteranopia" = inr (rgb nan nan nan).
Proof.
  apply (@X1_simulate_nan (mkRGB (Some 7) None None) "deuteranopia" deuteranopia).
  - reflexivity.
  - right; left; reflexivity.
Defined.

(** X2: a [type] that names a property inherited from [Object.prototype]
    ('constructor', 'toString', ...) does not throw: the lookup yields an
    object without indexed entries and [window.simulate] returns
    [{r: NaN, g: NaN, b: NaN}] for every colour; any other unknown type
    throws a [TypeError]. *)
Theorem X2_simulate_inherited (c : RGB) (type : string) :
  (In type Object_prototype_names -> simulate c type = inr (rgb nan nan nan))
  /\ (colorBlindnessMatrices type = None ->
      exists message, simulate c type = inl (TypeError message)).
Proof.
  split.
  - intros Hin.
    assert (HM : colorBlindnessMatrices type = Some []).
    { cbn in Hin.
      repeat (destruct Hin as [<-|Hin]; [reflexivity|]). destruct Hin. }
    rewrite (simulate_matrix _ _ HM).
    change (at_ [] ?i) with nan. nan_out.
  - intros HM. unfold simulate. rewrite HM. eexists. reflexivity.
Qed.

Lemma X2_simulate_inherited_witness :
  simulate (rgb 10 20 30) "toString" = inr (rgb nan nan nan)
  /\ exists message, simulate (rgb 10 20 30) "achromatopsia" = inl (TypeError message).
Proof.
  destruct (X2_simulate_inherited (rgb 10 20 30) "toString") as [Hin _].
  destruct (X2_simulate_inherited (rgb 10 20 30) "achromatopsia") as [_ Hnone].
  split; [apply Hin; cbn; tauto | apply Hnone; reflexivity].
Defined.

(** X19: [multiply] on a vector that is too short.  When the vector has
    fewer than three entries, the missing ones are read as [undefined]
    and all three results are [NaN], whatever the matrix; the same holds
    for any vector when the matrix has no entry at all. *)
Theorem X19_multiply_short (a b : list number) :
  ((List.length a < 3)%nat -> multiply a b = [nan; nan; nan])
  /\ multiply a [] = [nan; nan; nan].
Proof.
  split.
  - intros Hlen. unfold multiply.
    assert (H2 : at_ a 2 = nan).
    { unfold at_. destruct a as [|? [|? [|? ?]]]; cbn in Hlen |- *; try reflexivity; lia. }
    rewrite H2. f_equal; [|f_equal; [|f_equal]]; nan_out.
  - unfold multiply. change (at_ [] ?i) with nan. f_equal; [|f_equal; [|f_equal]]; nan_out.
Qed.

Lemma X19_multiply_short_witness :
  multiply [0.5; 0.25] protanopia = [nan; nan; nan].
Proof.
  apply (proj1 (X19_multiply_short [0.5; 0.25] protanopia)). cbn. lia.
Defined.

End NaNTheory.

(* ================================================================== *)
(** * The injected script on transparent pages and unknown types *)

Module ScriptTheory.
Import Num Color Str Page Observations.

Section Script.
Variable H : Host.
Variables Document Element : Type.
Variable querySelectorAll : Document -> list Element.
Variable getComputedStyle : Document -> Element -> ComputedStyle.
Variable setStyle : Document -> Element -> StyleProperty -> string -> Document.

Lemma visit_transparent (type : string) (d : Document) (el : Element) :
  both_transparent (getComputedStyle d el) = true ->
  visit H getComputedStyle setStyle type d el = inr d.
Proof.
  unfold both_transparent, visit. intros Hb.
  apply andb_true_iff in Hb. destruct Hb as [Hc Hbg].
  now rewrite Hc, Hbg.
Qed.

Lemma visit_unknown (type : string) (d : Document) (el : Element) :
  colorBlindnessMatrices type = None ->
  both_transparent (getComputedStyle d el) = false ->
  exists message,
    visit H getComputedStyle setStyle type d el = inl (TypeError message).
Proof.
  unfold both_transparent, visit, simulate. intros HM Hb. rewrite HM.
  destruct (color (getComputedStyle d el) =? transparent)%string; cbn [negb].
  - cbn [andb] in Hb. rewrite Hb. cbn [negb]. eexists. reflexivity.
  - eexists. reflexivity.
Qed.

Lemma forEach_transparent (type : string) (els : list Element) (d : Document) :
  forallb (fun el => both_transparent (getComputedStyle d el)) els = true ->
  forEach H getComputedStyle setStyle type els d = inr d.
Proof.
  induction els as [|el rest IH]; [reflexivity|].
  cbn [forallb forEach]. intros Hall.
  apply andb_true_iff in Hall. destruct Hall as [Hel Hrest].
  rewrite (visit_transparent type d el Hel). apply IH, Hrest.
Qed.

Lemma forEach_unknown (type : string) (els : list Element) (d : Document) :
  colorBlindnessMatrices type = None ->
  forallb (fun el => both_transparent (getComputedStyle d el)) els = false ->
  exists before el after message,
    els = before ++ el :: after
    /\ forallb (fun el => both_transparent (getComputedStyle d el)) before = true
    /\ forEach H getComputedStyle setStyle type before d = inr d
    /\ visit H getComputedStyle setStyle type d el = inl (TypeError message)
    /\ forEach H getComputedStyle setStyle type els d = inl (TypeError message).
Proof.
  intros HM. induction els as [|el rest IH]; [discriminate|].
  cbn [forallb forEach]. intros Hall.
  destruct (both_transparent (getComputedStyle d el)) eqn:Hel.
  - destruct (IH Hall) as (before & el' & after & message & -> & Hb & Hrun & Hv & Hall').
    exists (el :: before), el', after, message.
    cbn [forallb forEach app]. rewrite (visit_transparent type d el Hel), Hel.
    repeat split; assumption.
  - destruct (@visit_unknown type d el HM Hel) as [message Hv].
    exists [], el, rest, message. rewrite Hv. repeat split; reflexivity.
Qed.

End Script.

(** X3: the script on a fully transparent page, and on an unknown type.
    When every element's computed [color] and [backgroundColor] are
    ['rgba(0, 0, 0, 0)'] the script assigns nothing and returns the
    document as it was, whatever the type.  When the type has no matrix
    and some element is not transparent, the script throws a [TypeError]
    (so [page.evaluate] rejects) at the first such element, with the
    document still as it was: the elements before it were all transparent
    and the loop over them changed nothing. *)
Theorem X3_script_transparent_or_unknown
        (H : Host) (Document Element : Type)
        (querySelectorAll : Document -> list Element)
        (getComputedStyle : Document -> Element -> ComputedStyle)
        (setStyle : Document -> Element -> StyleProperty -> string -> Document)
        (type : string) (d : Document) :
  (forallb (fun el => both_transparent (getComputedStyle d el)) (querySelectorAll d)
   = true ->
   inject H querySelectorAll getComputedStyle setStyle type d = inr d)
  /\ (colorBlindnessMatrices type = None ->
      forallb (fun el => both_transparent (getComputedStyle d el)) (querySelectorAll d)
      = false ->
      exists before el after message,
        querySelectorAll d = before ++ el :: after
        /\ forallb (fun el => both_transparent (getComputedStyle d el)) before = true
        /\ forEach H getComputedStyle setStyle type before d = inr d
        /\ visit H getComputedStyle setStyle type d el = inl (TypeError message)
        /\ inject H querySelectorAll getComputedStyle setStyle type d
           = inl (TypeError message)).
Proof.
  split.
  - intros Hall. unfold inject. now apply forEach_transparent.
  - intros HM Hsome. unfold inject. now apply forEach_unknown.
Qed.

Lemma X3_script_transparent_or_unknown_witness :
  inject Demo.host Demo.querySelectorAll Demo.getComputedStyle Demo.setStyle
         "tritanopia" [("rgba(0, 0, 0, 0)", "rgba(0, 0, 0, 0)")]
  = inr [("rgba(0, 0, 0, 0)", "rgba(0, 0, 0, 0)")]
  /\ exists before el after message,
       Demo.querySelectorAll Demo.page = before ++ el :: after
       /\ forallb (fun el => both_transparent (Demo.getComputedStyle Demo.page el)) before
          = true
       /\ forEach Demo.host Demo.getComputedStyle Demo.setStyle "achromatopsia" before
                  Demo.page = inr Demo.page
       /\ visit Demo.host Demo.getComputedStyle Demo.setStyle "achromatopsia"
                Demo.page el = inl (TypeError message)
       /\ inject Demo.host Demo.querySelectorAll Demo.getComputedStyle Demo.setStyle
                 "achromatopsia" Demo.page
          = inl (TypeError message).
Proof.
  split.
  - apply (proj1 (@X3_script_transparent_or_unknown Demo.host Demo.Document nat
                    Demo.querySelectorAll Demo.getComputedStyle Demo.setStyle
                    "tritanopia" [("rgba(0, 0, 0, 0)", "rgba(0, 0, 0, 0)")])).
    reflexivity.
  - apply (proj2 (@X3_script_transparent_or_unknown Demo.host Demo.Document nat
                    Demo.querySelectorAll Demo.getComputedStyle Demo.setStyle
                    "achromatopsia" Demo.page)); reflexivity.
Defined.

End ScriptTheory.

(* ================================================================== *)
(** * Further properties of the URL rewriting *)

Module UrlFacts.
Import Str Url UrlTheory.

Lemma rewritten_prefixed (rest : string) :
  rewritten ("https://www." ++ rest) = ("https://www." ++ rest)%string.
Proof. reflexivity. Qed.

(** X4: the rewriting is idempotent: a URL that has been rewritten once
    is left as it is by a second rewriting. *)
Theorem X4_urlToUse_idempotent (url : string) :
  urlToUse (urlToUse url) = urlToUse url.
Proof.
  rewrite (urlToUse_rewritten url), urlToUse_rewritten.
  change (rewritten url) with ("https://www." ++ strip "www." (strip_scheme url))%string.
  apply rewritten_prefixed.
Qed.

(** X5: the rewriting only touches the head of the URL.  The result is
    ['https://www.'] followed by the argument without its first [n] code
    units, where [n] is one of 0, 4 ('www.'), 7 ('http://'),
    8 ('https://'), 11 or 12 (scheme and 'www.'); in particular the result
    always starts with ['https://www.'], even for the empty string. *)
Theorem X5_urlToUse_shape (url : string) :
  (exists n, In n [0; 4; 7; 8; 11; 12]%nat
             /\ urlToUse url = ("https://www." ++ drop n url)%string)
  /\ startsWith "https://www." (urlToUse url) = true.
Proof.
  rewrite urlToUse_rewritten. split; [|reflexivity].
  unfold rewritten, strip, strip_scheme. cbn [String.length].
  destruct (startsWith "https://" url).
  - destruct (startsWith "www." (drop 8 url)); rewrite ?drop_drop; cbn [Nat.add].
    + exists 12%nat. split; [cbn; tauto | reflexivity].
    + exists 8%nat. split; [cbn; tauto | reflexivity].
  - destruct (startsWith "http://" url).
    + destruct (startsWith "www." (drop 7 url)); rewrite ?drop_drop; cbn [Nat.add].
      * exists 11%nat. split; [cbn; tauto | reflexivity].
      * exists 7%nat. split; [cbn; tauto | reflexivity].
    + destruct (startsWith "www." url).
      * exists 4%nat. split; [cbn; tauto | reflexivity].
      * exists 0%nat. split; [cbn; tauto | reflexivity].
Qed.

(** X6: plain HTTP is upgraded.  An ['http://'] URL and the same URL
    under ['https://'] are navigated to at the same address, which is
    ['https://www.'] followed by the rest without a leading ['www.']; the
    match is case-sensitive and happens once, so an upper-case scheme or a
    second scheme stays in the address. *)
Theorem X6_urlToUse_scheme (rest : string) :
  urlToUse ("http://" ++ rest) = ("https://www." ++ strip "www." rest)%string
  /\ urlToUse ("https://" ++ rest) = ("https://www." ++ strip "www." rest)%string
  /\ urlToUse ("HTTP://" ++ rest) = ("https://www.HTTP://" ++ rest)%string
  /\ urlToUse ("http://www.http://" ++ rest) = ("https://www.http://" ++ rest)%string.
Proof.
  rewrite !urlToUse_rewritten. repeat split; reflexivity.
Qed.

End UrlFacts.

(* ================================================================== *)
(** * [parseColor] on the functional notations *)

Module ParseTheory.
Import Num Color Str Page Observations.
Local Open Scope string_scope.

Lemma lacks_app (c : ascii) (a b : string) :
  lacks c (a ++ b) = lacks c a && lacks c b.
Proof.
  induction a as [|c' a IH]; [reflexivity|].
  cbn [append lacks]. now rewrite IH, andb_assoc.
Qed.

Lemma plain_lacks (s : string) :
  plain s = true -> lacks "," s = true /\ lacks "(" s = true /\ lacks ")" s = true.
Proof.
  induction s as [|c s IH]; [now repeat split|].
  cbn [plain lacks]. unfold plain_char. intros Hp.
  apply andb_true_iff in Hp. destruct Hp as [Hc Hs].
  destruct (IH Hs) as (H1 & H2 & H3). rewrite H1, H2, H3.
  destruct (Ascii.eqb c ",") eqn:E1; [discriminate|].
  destruct (Ascii.eqb c "(") eqn:E2; [discriminate|].
  destruct (Ascii.eqb c ")") eqn:E3; [discriminate|].
  rewrite (Ascii.eqb_sym "," c), (Ascii.eqb_sym "(" c), (Ascii.eqb_sym ")" c).
  now rewrite E1, E2, E3.
Qed.

Lemma join_comma_lacks (c : ascii) (x : string) (rest : list string) :
  Ascii.eqb c "," = false ->
  forallb (lacks c) (x :: rest) = true ->
  lacks c (join_comma x rest) = true.
Proof.
  intros Hc. revert x. induction rest as [|y rest IH]; intros x Hall.
  - cbn in Hall |- *. now rewrite andb_true_r in Hall.
  - cbn [forallb] in Hall. apply andb_true_iff in Hall. destruct Hall as [Hx Hrest].
    cbn [join_comma]. rewrite lacks_app, Hx. cbn [append lacks andb].
    rewrite Hc. cbn [negb andb]. apply IH, Hrest.
Qed.

Lemma startsWith_eq (p s : string) :
  startsWith p s = true -> s = p ++ drop (String.length p) s.
Proof.
  revert s. induction p as [|a p IH]; intros s; [reflexivity|].
  destruct s as [|c s]; [discriminate|].
  cbn [startsWith String.length drop append]. intros Hs.
  apply andb_true_iff in Hs. destruct Hs as [Hac Hs].
  apply Ascii.eqb_eq in Hac. subst c. f_equal. apply IH, Hs.
Qed.

(** A pattern holding a code unit the string lacks is not found. *)
Lemma replace_first_absent (c : ascii) (pat rep s : string) :
  lacks c pat = false -> lacks c s = true -> replace_first pat rep s = s.
Proof.
  intros Hpat. induction s as [|c' s IH]; intros Hs.
  - cbn [replace_first]. destruct (startsWith pat "") eqn:E; [|reflexivity].
    apply startsWith_eq in E. destruct pat; [discriminate Hpat | discriminate E].
  - cbn [replace_first]. destruct (startsWith pat (String c' s)) eqn:E.
    + apply startsWith_eq in E. rewrite E, lacks_app, Hpat in Hs. discriminate.
    + cbn [lacks] in Hs. apply andb_true_iff in Hs. f_equal. apply IH, Hs.
Qed.

Lemma replace_first_closing (body : string) :
  lacks ")" body = true -> replace_first ")" "" (body ++ ")") = body.
Proof.
  induction body as [|c body IH]; [reflexivity|].
  cbn [lacks append replace_first startsWith]. intros Hs.
  apply andb_true_iff in Hs. destruct Hs as [Hc Hs].
  destruct (Ascii.eqb ")" c); [discriminate|]. cbn [andb].
  f_equal. apply IH, Hs.
Qed.

Lemma split_comma_field (x s : string) :
  lacks "," x = true -> split_comma (x ++ "," ++ s) = x :: split_comma s.
Proof.
  induction x as [|c x IH]; [reflexivity|].
  cbn [lacks append split_comma]. intros Hs.
  apply andb_true_iff in Hs. destruct Hs as [Hc Hs].
  rewrite Ascii.eqb_sym. destruct (Ascii.eqb "," c); [discriminate|].
  cbn [append] in IH. now rewrite (IH Hs).
Qed.

Lemma split_comma_last (x : string) :
  lacks "," x = true -> split_comma x = [x].
Proof.
  induction x as [|c x IH]; [reflexivity|].
  cbn [lacks split_comma]. intros Hs.
  apply andb_true_iff in Hs. destruct Hs as [Hc Hs].
  rewrite Ascii.eqb_sym. destruct (Ascii.eqb "," c); [discriminate|].
  now rewrite (IH Hs).
Qed.

Lemma split_comma_join (x : string) (rest : list string) :
  forallb (lacks ",") (x :: rest) = true ->
  split_comma (join_comma x rest) = x :: rest.
Proof.
  revert x. induction rest as [|y rest IH]; intros x Hall.
  - cbn in Hall |- *. rewrite andb_true_r in Hall. now apply split_comma_last.
  - cbn [forallb] in Hall. apply andb_true_iff in Hall. destruct Hall as [Hx Hrest].
    cbn [join_comma]. rewrite split_comma_field by exact Hx. f_equal. apply IH, Hrest.
Qed.

Lemma forallb_plain (c : ascii) (fields : list string) :
  (c = "," \/ c = "(" \/ c = ")")%char ->
  forallb plain fields = true -> forallb (lacks c) fields = true.
Proof.
  intros Hc. induction fields as [|x rest IH]; [reflexivity|].
  cbn [forallb]. intros Hall. apply andb_true_iff in Hall. destruct Hall as [Hx Hrest].
  rewrite (IH Hrest), andb_true_r.
  destruct (plain_lacks x Hx) as (H1 & H2 & H3).
  destruct Hc as [->|[->| ->]]; assumption.
Qed.

(** The fields both copies of [parseColor] read out of a normalised
    colour [prefix ++ fields.join(',') ++ ')']. *)
Lemma fields_of_normalized (prefix x : string) (rest : list string) :
  prefix = "rgb(" \/ prefix = "rgba(" ->
  forallb plain (x :: rest) = true ->
  let color := prefix ++ join_comma x rest ++ ")" in
  (startsWith "rgba(" color || startsWith "rgb(" color) = true
  /\ split_comma
       (replace_first ")" "" (replace_first "rgb(" "" (replace_first "rgba(" "" color)))
     = x :: rest.
Proof.
  intros Hprefix Hplain color.
  assert (Hopen : lacks "(" (join_comma x rest ++ ")") = true).
  { rewrite lacks_app, join_comma_lacks; [reflexivity | reflexivity |].
    apply forallb_plain; [tauto | assumption]. }
  assert (Hclose : lacks ")" (join_comma x rest) = true).
  { apply join_comma_lacks; [reflexivity|]. apply forallb_plain; [tauto | assumption]. }
  assert (Hcomma : forallb (lacks ",") (x :: rest) = true).
  { apply forallb_plain; [tauto | assumption]. }
  subst color. destruct Hprefix as [->| ->].
  - split; [reflexivity|].
    change (replace_first "rgba(" "" ("rgb(" ++ join_comma x rest ++ ")"))
      with ("rgb(" ++ replace_first "rgba(" "" (join_comma x rest ++ ")")).
    rewrite (@replace_first_absent "(" "rgba(" "" _ eq_refl Hopen).
    change (replace_first "rgb(" "" ("rgb(" ++ join_comma x rest ++ ")"))
      with (join_comma x rest ++ ")").
    rewrite replace_first_closing by exact Hclose. now apply split_comma_join.
  - split; [reflexivity|].
    change (replace_first "rgba(" "" ("rgba(" ++ join_comma x rest ++ ")"))
      with (join_comma x rest ++ ")").
    rewrite (@replace_first_absent "(" "rgb(" "" _ eq_refl Hopen).
    rewrite replace_first_closing by exact Hclose. now apply split_comma_join.
Qed.

(** X7: [parseColor] reads the first three comma-separated fields of a
    functional colour.  When the lower-cased input without white space is
    ['rgb(' or 'rgba('], fields free of commas and parentheses joined by
    commas, and [')'], both copies return [Number] of the first three
    fields: a fourth field (the alpha of ['rgba']) is dropped, and a
    missing second or third field is [undefined]. *)
Theorem X7_parseColor_fields (H : Host) (color prefix x : string) (rest : list string) :
  prefix = "rgb(" \/ prefix = "rgba(" ->
  forallb plain (x :: rest) = true ->
  remove_spaces (toLowerCase H color) = prefix ++ join_comma x rest ++ ")" ->
  let values := map (Number H) (x :: rest) in
  parseColor H color = mkRGB (nth_error values 0) (nth_error values 1) (nth_error values 2)
  /\ parseColor_injected H color = parseColor H color.
Proof.
  intros Hprefix Hplain Hnorm values. split; [|reflexivity].
  destruct (@fields_of_normalized prefix x rest Hprefix Hplain) as [Hstarts Hfields].
  unfold parseColor. rewrite Hnorm. cbv zeta in Hstarts, Hfields |- *.
  rewrite Hstarts, Hfields. reflexivity.
Qed.

Lemma X7_parseColor_fields_witness :
  parseColor Demo.host "RGBA(12, 200, 255, 0.5)"
  = mkRGB (Some (Number Demo.host "12")) (Some (Number Demo.host "200"))
          (Some (Number Demo.host "255"))
  /\ parseColor_injected Demo.host "RGBA(12, 200, 255, 0.5)"
     = parseColor Demo.host "RGBA(12, 200, 255, 0.5)".
Proof.
  apply (@X7_parseColor_fields Demo.host "RGBA(12, 200, 255, 0.5)" "rgba(" "12"
           ["200"; "255"; "0.5"]); [right; reflexivity | reflexivity | reflexivity].
Defined.



End ParseTheory.

(* ================================================================== *)
(** * Further properties of the request handlers *)

Module HandlerTheory.
Import JsValue Server Observations Tactics ServerTheory.
Local Open Scope string_scope.

(** A [try]/[catch] handler never throws an [McpError]. *)
Lemma run_never_threw (m : M Response) (w : World) (e : McpError) :
  snd (run m w) <> inr (Threw e).
Proof.
  unfold run. destruct (m w start) as [s [thrown|r]]; cbn; discriminate.
Qed.

Lemma accessibility_returns (H : Host) (w : World) (url userAgent : string) :
  exists resp,
    snd (run (try_catch (accessibility_try H url userAgent) accessibility_catch) w)
    = inr (Returned resp).
Proof.
  unfold run, try_catch, accessibility_catch, ret.
  destruct (accessibility_try H url userAgent w start) as [s [e|r]];
    eexists; reflexivity.
Qed.

Lemma simulation_returns (H : Host) (w : World) (url type : string)
      (outputPath userAgent : value) :
  exists resp,
    snd (run (try_catch (simulation_try H url type outputPath userAgent)
                        simulation_catch) w)
    = inr (Returned resp).
Proof.
  cbv beta iota zeta delta [run try_catch simulation_catch bind read_browser ret call fst snd].
  destruct (simulation_try H url type outputPath userAgent w start) as [s [e|r]];
    [|eexists; reflexivity].
  destruct (browser s); [|eexists; reflexivity].
  destruct (outcome w (List.length (trace s)) close); eexists; reflexivity.
Qed.

(** X9: what a [CallTool] request can end in.  For every host, world and
    request (any tool name, any arguments) the handler either returns a
    response, or throws an [McpError] before any driver call; no other
    thrown value ever leaves it. *)
Theorem X9_CallTool_outcomes (H : Host) (w : World) (request : CallToolRequest) :
  (exists resp, completion_of (CallTool H request) w = inr (Returned resp))
  \/ (trace_of (CallTool H request) w = []
      /\ exists e, completion_of (CallTool H request) w = inr (Threw e)).
Proof.
  unfold CallTool, completion_of, trace_of.
  destruct (name request =? "check_accessibility").
  - unfold handleAccessibilityCheck.
    destruct (truthy (arguments request)); cbn [negb];
      [|right; split; [reflexivity | eexists; reflexivity]].
    destruct (as_string (get (arguments request) "url"));
      [|right; split; [reflexivity | eexists; reflexivity]].
    left. apply accessibility_returns.
  - destruct (name request =? "simulate_colorblind");
      [|right; split; [reflexivity | eexists; reflexivity]].
    unfold handleColorBlindSimulation.
    destruct (truthy (arguments request)); cbn [negb];
      [|right; split; [reflexivity | eexists; reflexivity]].
    destruct (as_string (get (arguments request) "url"));
      [|right; split; [reflexivity | eexists; reflexivity]].
    destruct (as_string (get (arguments request) "type"));
      [|right; split; [reflexivity | eexists; reflexivity]].
    left. apply simulation_returns.
Qed.

(** X10: the handlers stop at the first rejected driver call.  For a
    valid request, in every world, [check_accessibility] makes no driver
    call after a rejected one; [simulate_colorblind] makes none either,
    except the single clean-up [close], and only when [launch] itself had
    succeeded. *)
Theorem X10_stops_at_first_failure (H : Host) (w : World) (request : CallToolRequest)
        (url type : string) :
  (valid_simulation request url type ->
   let t := trace_of (handleColorBlindSimulation H request) w in
   after_first_failure t = None
   \/ after_first_failure t = Some []
   \/ (after_first_failure t = Some [close]
       /\ hd_error t = Some {| op := launch true launch_args; failure := None |}))
  /\ (valid_accessibility request url ->
      let t := trace_of (handleAccessibilityCheck H request) w in
      after_first_failure t = None \/ after_first_failure t = Some []).
Proof.
  split; intros Hv.
  - rewrite (simulation_valid H Hv). explore; cbn; tauto.
  - rewrite (accessibility_valid H Hv). explore; cbn; tauto.
Qed.

Lemma X10_stops_at_first_failure_witness :
  (after_first_failure
     (trace_of (handleColorBlindSimulation Demo.host
                  (simulate_request "example.invalid" "protanopia")) crashed) = None
   \/ after_first_failure
        (trace_of (handleColorBlindSimulation Demo.host
                     (simulate_request "example.invalid" "protanopia")) crashed) = Some []
   \/ (after_first_failure
         (trace_of (handleColorBlindSimulation Demo.host
                      (simulate_request "example.invalid" "protanopia")) crashed)
       = Some [close]
       /\ hd_error (trace_of (handleColorBlindSimulation Demo.host
                                (simulate_request "example.invalid" "protanopia")) crashed)
          = Some {| op := launch true launch_args; failure := None |}))
  /\ (after_first_failure
        (trace_of (handleAccessibilityCheck Demo.host (check_request "example.invalid"))
                  crashed) = None
      \/ after_first_failure
           (trace_of (handleAccessibilityCheck Demo.host (check_request "example.invalid"))
                     crashed) = Some []).
Proof.
  split.
  - apply (proj1 (X10_stops_at_first_failure Demo.host crashed
                    (simulate_request "example.invalid" "protanopia")
                    "example.invalid" "protanopia")).
    repeat split; reflexivity.
  - apply (proj2 (X10_stops_at_first_failure Demo.host crashed
                    (check_request "example.invalid") "example.invalid" "")).
    repeat split; reflexivity.
Defined.

(** X11: success means that nothing failed.  For a valid request, in
    every world, the [simulate_colorblind] response has no [isError]
    exactly when no driver call rejected and [join] accepted the file
    name; the [check_accessibility] response has no [isError] exactly when
    no driver call rejected and the audit called back with results. *)
Theorem X11_success_iff_nothing_failed (H : Host) (w : World)
        (request : CallToolRequest) (url type : string) :
  (valid_simulation request url type ->
   forall resp,
     completion_of (handleColorBlindSimulation H request) w = inr (Returned resp) ->
     (isError resp = None <->
      existsb failed (trace_of (handleColorBlindSimulation H request) w) = false
      /\ exists path,
          join H (outputDir w)
               (or_else (get (arguments request) "outputPath")
                        (str ("colorblind_" ++ type ++ ".png"))) = inr path))
  /\ (valid_accessibility request url ->
      forall resp,
        completion_of (handleAccessibilityCheck H request) w = inr (Returned resp) ->
        (isError resp = None <->
         existsb failed (trace_of (handleAccessibilityCheck H request) w) = false
         /\ exists results, axe_run w = AxeDone results)).
Proof.
  split; intros Hv resp.
  - rewrite (simulation_valid H Hv).
    explore; cbn; intros Hc; inversion Hc; subst resp; cbn;
      (split; [intros X; first [discriminate X
                               | split; [reflexivity | eexists; reflexivity]]
              | intros [X [path Y]];
                first [discriminate X | discriminate Y | reflexivity]]).
  - rewrite (accessibility_valid H Hv).
    explore; cbn; intros Hc; inversion Hc; subst resp; cbn;
      (split; [intros X; first [discriminate X
                               | split; [reflexivity | eexists; reflexivity]]
              | intros [X [found Y]];
                first [discriminate X | discriminate Y | reflexivity]]).
Qed.

Lemma X11_success_iff_nothing_failed_witness :
  (exists resp,
      completion_of (handleColorBlindSimulation Demo.host
                       (simulate_request "example.invalid" "protanopia")) unreachable
      = inr (Returned resp)
      /\ (isError resp = None <->
          existsb failed
            (trace_of (handleColorBlindSimulation Demo.host
                         (simulate_request "example.invalid" "protanopia")) unreachable)
          = false
          /\ exists path,
              join Demo.host (outputDir unreachable)
                   (or_else (get (arguments (simulate_request "example.invalid"
                                                              "protanopia"))
                                 "outputPath")
                            (str ("colorblind_" ++ "protanopia" ++ ".png"))) = inr path))
  /\ (exists resp,
         completion_of (handleAccessibilityCheck Demo.host (check_request "example.com"))
                       (calm sample_results "2025-01-01T00:00:00.000Z" None)
         = inr (Returned resp)
         /\ (isError resp = None <->
             existsb failed
               (trace_of (handleAccessibilityCheck Demo.host (check_request "example.com"))
                         (calm sample_results "2025-01-01T00:00:00.000Z" None))
             = false
             /\ exists results,
                 axe_run (calm sample_results "2025-01-01T00:00:00.000Z" None)
                 = AxeDone results)).
Proof.
  split; eexists; (split; [vm_compute; reflexivity|]).
  - apply (proj1 (X11_success_iff_nothing_failed Demo.host unreachable
                    (simulate_request "example.invalid" "protanopia")
                    "example.invalid" "protanopia"));
      [repeat split; reflexivity | vm_compute; reflexivity].
  - apply (proj2 (X11_success_iff_nothing_failed Demo.host
                    (calm sample_results "2025-01-01T00:00:00.000Z" None)
                    (check_request "example.com") "example.com" ""));
      [repeat split; reflexivity | vm_compute; reflexivity].
Defined.

(** X12: when [simulate_colorblind] leaves a browser running, a
    [browser.close()] call has rejected.  For a valid request, in every
    world: if the browser launched by the handler is still running when it
    returns, the trace holds a rejected [close]; in particular a rejected
    [launch] leaves nothing to close, and the handler then makes no
    [close] call at all. *)
Theorem X12_simulation_closes_or_close_failed (H : Host) (w : World)
        (request : CallToolRequest) (url type : string) :
  valid_simulation request url type ->
  let t := trace_of (handleColorBlindSimulation H request) w in
  (browser_running t = true -> existsb failed_close t = true)
  /\ (forall e, outcome w 0 (launch true launch_args) = Some e ->
                count is_close t = 0%nat /\ browser_running t = false).
Proof.
  intros Hv. rewrite (simulation_valid H Hv).
  explore; cbn; (split; [intros X; first [discriminate X | reflexivity]
                        | intros ? X; first [discriminate X | split; reflexivity]]).
Qed.

Lemma X12_simulation_closes_or_close_failed_witness :
  existsb failed_close
    (trace_of (handleColorBlindSimulation Demo.host
                 (simulate_request "example.invalid" "protanopia")) crashed) = true.
Proof.
  apply (@X12_simulation_closes_or_close_failed Demo.host crashed
           (simulate_request "example.invalid" "protanopia") "example.invalid" "protanopia").
  - repeat split; reflexivity.
  - reflexivity.
Defined.

(** X13: [check_accessibility] closes the browser before it looks at the
    audit's answer.  For a valid request: a response without [isError]
    leaves no browser running; and when every driver call succeeds but
    the audit calls back with an error, the response is
    ['Error analyzing URL: ' + String(err)] under [isError: true], the last
    driver call was [close], and no browser is left running. *)
Theorem X13_accessibility_closes_before_reporting (H : Host) (w : World)
        (request : CallToolRequest) (url : string) :
  valid_accessibility request url ->
  let t := trace_of (handleAccessibilityCheck H request) w in
  (forall resp,
      completion_of (handleAccessibilityCheck H request) w = inr (Returned resp) ->
      isError resp = None -> browser_running t = false)
  /\ (forall err,
         axe_run w = AxeError err ->
         existsb failed t = false ->
         completion_of (handleAccessibilityCheck H request) w
         = inr (Returned (error_response "Error analyzing URL: " (Error err)))
         /\ last (ops t) newPage = close
         /\ browser_running t = false).
Proof.
  intros Hv. rewrite (accessibility_valid H Hv).
  explore; cbn;
    (split; [intros resp Hc Hok; inversion Hc; subst resp;
             first [discriminate Hok | reflexivity]
            | intros bad Ha Hf;
              first [discriminate Hf | discriminate Ha
                    | inversion Ha; subst; repeat split; reflexivity]]).
Qed.

Lemma X13_accessibility_closes_before_reporting_witness :
  completion_of (handleAccessibilityCheck Demo.host (check_request "example.com"))
                {| outcome := fun _ _ => None;
                   axe_run := AxeError "Error: No elements found for include in page Context";
                   now_ISO := "";
                   MCP_OUTPUT_DIR := None |}
  = inr (Returned (error_response "Error analyzing URL: "
                     (Error "Error: No elements found for include in page Context")))
  /\ last (ops (trace_of (handleAccessibilityCheck Demo.host (check_request "example.com"))
                         {| outcome := fun _ _ => None;
                            axe_run := AxeError "Error: No elements found for include in page Context";
                            now_ISO := "";
                            MCP_OUTPUT_DIR := None |})) newPage = close
  /\ browser_running
       (trace_of (handleAccessibilityCheck Demo.host (check_request "example.com"))
                 {| outcome := fun _ _ => None;
                    axe_run := AxeError "Error: No elements found for include in page Context";
                    now_ISO := "";
                    MCP_OUTPUT_DIR := None |}) = false.
Proof.
  apply (proj2 (@X13_accessibility_closes_before_reporting Demo.host
                  {| outcome := fun _ _ => None;
                     axe_run := AxeError "Error: No elements found for include in page Context";
                     now_ISO := "";
                     MCP_OUTPUT_DIR := None |}
                  (check_request "example.com") "example.com"
                  ltac:(repeat split; reflexivity))); reflexivity.
Defined.

(** ** The schemas against the handlers *)

Lemma supported_runs (c : Color.RGB) (type : string) :
  Color.supported type -> exists out, Color.simulate c type = inr out.
Proof.
  intros Hs. destruct (ColorTheory.supported_matrix Hs) as [HM|[HM|HM]];
    rewrite (ColorTheory.simulate_matrix _ _ HM); eexists; reflexivity.
Qed.



(** X15: a handler rejects the arguments exactly when the schema's
    [required] list is not met.  For each advertised tool and every
    request naming it, in every world, [CallTool] throws an [McpError]
    if and only if the arguments are falsy or some required property is
    not a string; it then makes no driver call, and the error code is
    [InvalidParams]. *)
Theorem X15_required_is_what_is_checked (H : Host) (w : World) (tool : Tool)
        (request : CallToolRequest) :
  In tool ListTools ->
  name request = tool_name tool ->
  ((exists e, completion_of (CallTool H request) w = inr (Threw e))
   <-> truthy (arguments request) = false
       \/ lacks_required tool (arguments request) = true)
  /\ (forall e, completion_of (CallTool H request) w = inr (Threw e) ->
                code e = InvalidParams /\ trace_of (CallTool H request) w = []).
Proof.
  intros [<-|[<-|[]]] Hname.
  - rewrite (proj1 (CallTool_dispatch H request) Hname).
    unfold handleAccessibilityCheck, lacks_required, completion_of, trace_of.
    cbn [required ListTools hd nth existsb].
    destruct (truthy (arguments request)); cbn [negb].
    + destruct (as_string (get (arguments request) "url")); cbn [orb].
      * split.
        -- split; [intros [e He]; now apply run_never_threw in He
                  | intros [X|X]; discriminate X].
        -- intros e He. now apply run_never_threw in He.
      * split.
        -- split; [intros _; now right | intros _; eexists; reflexivity].
        -- intros e He. inversion He. split; reflexivity.
    + split.
      * split; [intros _; now left | intros _; eexists; reflexivity].
      * intros e He. inversion He. split; reflexivity.
  - rewrite (proj2 (CallTool_dispatch H request) Hname).
    unfold handleColorBlindSimulation, lacks_required, completion_of, trace_of.
    cbn [required ListTools hd nth existsb].
    destruct (truthy (arguments request)); cbn [negb].
    + destruct (as_string (get (arguments request) "url")),
        (as_string (get (arguments request) "type")); cbn [orb].
      * split.
        -- split; [intros [e He]; now apply run_never_threw in He
                  | intros [X|X]; discriminate X].
        -- intros e He. now apply run_never_threw in He.
      * split.
        -- split; [intros _; now right | intros _; eexists; reflexivity].
        -- intros e He. inversion He. split; reflexivity.
      * split.
        -- split; [intros _; now right | intros _; eexists; reflexivity].
        -- intros e He. inversion He. split; reflexivity.
      * split.
        -- split; [intros _; now right | intros _; eexists; reflexivity].
        -- intros e He. inversion He. split; reflexivity.
    + split.
      * split; [intros _; now left | intros _; eexists; reflexivity].
      * intros e He. inversion He. split; reflexivity.
Qed.

Lemma X15_required_is_what_is_checked_witness :
  exists e,
    completion_of (CallTool Demo.host
                     {| name := "simulate_colorblind";
                        arguments := object [("url", str "example.com")] |})
                  (calm no_results "" None) = inr (Threw e).
Proof.
  apply (proj1 (@X15_required_is_what_is_checked Demo.host (calm no_results "" None)
                  simulate_tool
                  {| name := "simulate_colorblind";
                     arguments := object [("url", str "example.com")] |}
                  (or_intror (or_introl eq_refl)) eq_refl)).
  right. reflexivity.
Defined.

(** ** Where the screenshot goes, and which user agent is sent *)

(** A [Forall] over the ops of an explicit trace, leaving the cases that
    are not [True]. *)
Ltac each_op :=
  repeat (apply Forall_cons; [first [exact I | idtac]|]); try apply Forall_nil.

Lemma join_string (H : Host) (dir : string) (v : value) (path : string) :
  join H dir v = inr path ->
  exists file, as_string v = Some file /\ path = path_join H dir file.
Proof.
  destruct v; cbn; intros X; try discriminate X.
  inversion X. eexists. split; reflexivity.
Qed.

Lemma join_not_string (H : Host) (dir : string) (v : value) :
  as_string v = None -> join H dir v = inl (Error (path_invalid_arg H v)).
Proof. destruct v; cbn; intros X; try discriminate X; reflexivity. Qed.

(** X16: where the screenshot goes.  For a valid [simulate_colorblind]
    request, in every world, every [screenshot] call is a full-page
    capture to [join(dir, file)], where [file] is the [outputPath]
    argument when that is a non-empty string and
    ['colorblind_' + type + '.png'] when it is falsy (absent, empty, ...),
    and [dir] is [MCP_OUTPUT_DIR], or ['./output'] when the variable is
    unset or empty; at most one screenshot is taken. *)
Theorem X16_screenshot_target (H : Host) (w : World) (request : CallToolRequest)
        (url type : string) :
  valid_simulation request url type ->
  let t := trace_of (handleColorBlindSimulation H request) w in
  let outputPath := get (arguments request) "outputPath" in
  Forall (fun o => match o with
                   | screenshot path fullPage =>
                     fullPage = true
                     /\ exists file, screenshot_name outputPath type = Some file
                                     /\ path = path_join H (outputDir w) file
                   | _ => True
                   end) (ops t)
  /\ (count is_screenshot t <= 1)%nat
  /\ (truthy outputPath = false ->
      screenshot_name outputPath type = Some ("colorblind_" ++ type ++ ".png"))
  /\ (forall file, outputPath = str file -> file <> "" ->
                   screenshot_name outputPath type = Some file)
  /\ (MCP_OUTPUT_DIR w = None \/ MCP_OUTPUT_DIR w = Some "" -> outputDir w = "./output")
  /\ (forall dir, MCP_OUTPUT_DIR w = Some dir -> dir <> "" -> outputDir w = dir).
Proof.
  intros Hv t outputPath. subst t.
  split; [|split; [|split; [|split; [|split]]]].
  - rewrite (simulation_valid H Hv).
    explore; cbn; each_op;
      (split; [reflexivity | exact (join_string _ _ _ J)]).
  - rewrite (simulation_valid H Hv). explore; cbn; lia.
  - intros E. unfold screenshot_name, or_else. rewrite E. reflexivity.
  - intros file E Hfile. unfold screenshot_name, or_else. rewrite E. cbn.
    destruct (String.eqb_spec file ""); [contradiction | reflexivity].
  - intros [E|E]; unfold outputDir; rewrite E; reflexivity.
  - intros dir E Hdir. unfold outputDir. rewrite E.
    destruct (String.eqb_spec dir ""); [contradiction | reflexivity].
Qed.

Lemma X16_screenshot_target_witness :
  ops (trace_of (handleColorBlindSimulation Demo.host
                   {| name := "simulate_colorblind";
                      arguments := object [("url", str "example.com");
                                           ("type", str "protanopia");
                                           ("outputPath", str "shot.png")] |})
                (calm no_results "" (Some "/tmp/out")))
  = [ launch true launch_args; newPage; setViewport 1920 1080;
      setUserAgent (str windows_agent); setRequestInterception true;
      on_ "request"; on_ "response"; on_ "console";
      goto "https://www.example.com" "networkidle2" 120000;
      waitForSelector "body" 120000; setTimeout 5000;
      evaluate_simulation "protanopia"; setTimeout 2000;
      screenshot "/tmp/out/shot.png" true; close ]
  /\ screenshot_name (str "shot.png") "protanopia" = Some "shot.png".
Proof.
  destruct (@X16_screenshot_target Demo.host (calm no_results "" (Some "/tmp/out"))
              {| name := "simulate_colorblind";
                 arguments := object [("url", str "example.com");
                                      ("type", str "protanopia");
                                      ("outputPath", str "shot.png")] |}
              "example.com" "protanopia" ltac:(repeat split; reflexivity))
    as (_ & _ & _ & Hgiven & _).
  split; [vm_compute; reflexivity|].
  apply (Hgiven "shot.png"); [reflexivity | discriminate].
Defined.

(** X17: an [outputPath] that is truthy but not a string (a number, an
    object, ...) is only found out when the file name is joined, after
    the page has been loaded and transformed.  For a valid request with
    such an argument, in every world, no screenshot is taken; and when no
    driver call rejects, the script has been injected, the response is the
    error thrown by [path.join] under [isError: true], and the browser is
    closed. *)
Theorem X17_outputPath_not_a_string (H : Host) (w : World) (request : CallToolRequest)
        (url type : string) :
  valid_simulation request url type ->
  screenshot_name (get (arguments request) "outputPath") type = None ->
  let t := trace_of (handleColorBlindSimulation H request) w in
  count is_screenshot t = 0%nat
  /\ (existsb failed t = false ->
      In (evaluate_simulation type) (ops t)
      /\ completion_of (handleColorBlindSimulation H request) w
         = inr (Returned
                  (error_response "Error simulating color blindness: "
                     (Error (path_invalid_arg H (get (arguments request) "outputPath")))))
      /\ browser_running t = false).
Proof.
  intros Hv Hname.
  assert (Hor : or_else (get (arguments request) "outputPath")
                        (str ("colorblind_" ++ type ++ ".png"))
                = get (arguments request) "outputPath").
  { unfold screenshot_name, or_else in Hname |- *.
    destruct (truthy (get (arguments request) "outputPath"));
      [reflexivity | discriminate Hname]. }
  assert (Hjoin : forall dir,
             join H dir (or_else (get (arguments request) "outputPath")
                                 (str ("colorblind_" ++ type ++ ".png")))
             = inl (Error (path_invalid_arg H (get (arguments request) "outputPath")))).
  { intros dir. rewrite <- Hor at 2. now apply join_not_string. }
  rewrite (simulation_valid H Hv).
  explore; cbn;
    try (rewrite Hjoin in *; discriminate);
    (split; [reflexivity|]);
    intros Hf; try discriminate Hf.
  rewrite Hjoin in J. inversion J. subst.
  split; [tauto|]. split; reflexivity.
Qed.

Lemma X17_outputPath_not_a_string_witness :
  count is_screenshot
        (trace_of (handleColorBlindSimulation Demo.host
                     {| name := "simulate_colorblind";
                        arguments := object [("url", str "example.com");
                                             ("type", str "protanopia");
                                             ("outputPath", num 5%float)] |})
                  (calm no_results "" None)) = 0%nat
  /\ completion_of (handleColorBlindSimulation Demo.host
                      {| name := "simulate_colorblind";
                         arguments := object [("url", str "example.com");
                                              ("type", str "protanopia");
                                              ("outputPath", num 5%float)] |})
                   (calm no_results "" None)
     = inr (Returned
              (error_response "Error simulating color blindness: "
                 (Error (path_invalid_arg Demo.host (num 5%float))))).
Proof.
  destruct (@X17_outputPath_not_a_string Demo.host (calm no_results "" None)
              {| name := "simulate_colorblind";
                 arguments := object [("url", str "example.com");
                                      ("type", str "protanopia");
                                      ("outputPath", num 5%float)] |}
              "example.com" "protanopia"
              ltac:(repeat split; reflexivity) eq_refl) as [Hnone Hreport].
  split; [exact Hnone|].
  apply Hreport. reflexivity.
Defined.

Lemma accessibility_agent (request : CallToolRequest) :
  exists agent,
    or_else (str (agent_of request)) (str windows_agent) = str agent /\ agent <> "".
Proof.
  unfold or_else. cbn [truthy].
  destruct (String.eqb_spec (agent_of request) "") as [E|E]; cbn [negb].
  - exists windows_agent. split; [reflexivity | discriminate].
  - exists (agent_of request). split; [reflexivity | exact E].
Qed.



End HandlerTheory.

(* ================================================================== *)
(** * From a computed colour to the simulated colour *)

Module PipelineTheory.
Import Num Color Str Page Observations ColorFacts ColorTheory ParseTheory.
Local Open Scope string_scope.

(** X20: parsing and simulating a computed colour.  For a supported type
    and a computed colour that normalises to ['rgb(' or 'rgba('], three or
    more plain fields, [')'], where [Number] reads the first three fields
    as the integers [x], [y], [z] of [0..255]: the colour the script
    computes, [simulate (parseColor color) type], exists, ignores any
    further field (the alpha), and has all its components in [0,338]. *)
Theorem X20_parse_then_simulate (H : Host) (color prefix sx sy sz : string)
        (more : list string) (type : string) (x y z : Z) :
  supported type ->
  prefix = "rgb(" \/ prefix = "rgba(" ->
  forallb plain (sx :: sy :: sz :: more) = true ->
  remove_spaces (toLowerCase H color) = prefix ++ join_comma sx (sy :: sz :: more) ++ ")" ->
  Number H sx = of_Z x -> Number H sy = of_Z y -> Number H sz = of_Z z ->
  (0 <= x <= 255)%Z -> (0 <= y <= 255)%Z -> (0 <= z <= 255)%Z ->
  exists out,
    simulate (parseColor_injected H color) type = inr out
    /\ simulate (rgb (of_Z x) (of_Z y) (of_Z z)) type = inr out
    /\ components_in 0%float 338%float out = true.
Proof.
  intros Hs Hprefix Hplain Hnorm Hx Hy Hz Rx Ry Rz.
  assert (Hparse : parseColor_injected H color = rgb (of_Z x) (of_Z y) (of_Z z)).
  { destruct (@fields_of_normalized prefix sx (sy :: sz :: more) Hprefix Hplain)
      as [Hstarts Hfields].
    unfold parseColor_injected. rewrite Hnorm. cbv zeta in Hstarts, Hfields |- *.
    rewrite Hstarts, Hfields. cbn [map nth_error]. now rewrite Hx, Hy, Hz. }
  rewrite Hparse.
  assert (Hrange : exists out,
             simulate (rgb (of_Z x) (of_Z y) (of_Z z)) type = inr out
             /\ components_in 0%float 338%float out = true).
  { destruct (supported_matrix Hs) as [HM|[HM|HM]].
    - exact (@simulate_in_range 0%float 338%float type protanopia x y z HM protanopia_ok Rx Ry Rz).
    - exact (@simulate_in_range 0%float 338%float type deuteranopia x y z HM deuteranopia_ok Rx Ry Rz).
    - exact (@simulate_in_range 0%float 338%float type tritanopia x y z HM tritanopia_ok Rx Ry Rz). }
  destruct Hrange as (out & Hsim & Hin). exists out. repeat split; assumption.
Qed.

Lemma X20_parse_then_simulate_witness :
  exists out,
    simulate (parseColor_injected Demo.host "rgba(255, 255, 0, 0.5)") "deuteranopia"
    = inr out
    /\ simulate (rgb (of_Z 255) (of_Z 255) (of_Z 0)) "deuteranopia" = inr out
    /\ components_in 0%float 338%float out = true.
Proof.
  apply (@X20_parse_then_simulate Demo.host "rgba(255, 255, 0, 0.5)" "rgba("
           "255" "255" "0" ["0.5"] "deuteranopia" 255 255 0);
    try reflexivity; try lia.
  - right; left; reflexivity.
  - right; reflexivity.
Defined.

End PipelineTheory.
